(** * FFT analyzer client: session, acquisition control and polling

    A shallow embedding of the React component [App] of
    [fft-analysis/app/(tabs)/index.tsx].

    The component keeps seven [useState] cells.  Its handlers only call the
    cells' setters, [fetch], [Alert.alert], [console.log] and
    [setInterval]/[clearInterval]; all of them are modelled by explicit state
    passing over one record, [App], that holds the seven cells together with
    the part of the JavaScript runtime the handlers act on: the interval
    registered by the polling effect, the promises of the [fetch] calls that
    have not settled yet, the log of every [fetch] call made, the alerts
    raised and the console output.

    Modelling conventions.
    - One handler invocation (a tap, an interval callback, or the
      [then]/[catch]/[finally] chain of one settled [fetch]) is one
      transition; the state updates it makes are committed together and the
      polling [useEffect] is then run against the dependency values of the
      previous commit.
    - JSON bodies are typed as the interfaces of the source type them
      ([FFTData]) or as the fields the handlers read ([version],
      [analysis_running], [success]).  A reply of another shape (the JSON
      value [null], an object without these fields) is not an event of the
      model: every statement below is about replies of these shapes and
      about rejections.
    - JavaScript numbers are binary64 floats.
    - The interval's period is recorded in the registered interval; one
      firing of the interval is the event [Tick]. *)

From Stdlib Require Import Bool List String ZArith PrimFloat.
Import ListNotations.
Open Scope string_scope.

(** ** Data *)

Definition number := float.

(** [interface PeakData] *)
Record PeakData := mkPeakData {
  frequency : number;
  magnitude : number
}.

(** [interface FFTData] *)
Record FFTData := mkFFTData {
  timestamp : number;
  peak_data : list PeakData;
  max_voltage : number;
  total_power : number;
  is_running : bool
}.

(** Body of [/api/status], as read by [testConnection]. *)
Record StatusReply := mkStatusReply {
  version : string;
  analysis_running : bool
}.

(** Body of [/api/fft/start] and [/api/fft/stop]. *)
Record AckReply := mkAckReply {
  success : bool
}.

Inductive Body :=
| JStatus (data : StatusReply)
| JAck (data : AckReply)
| JData (data : FFTData).

(** Why a [fetch(...).then(response => response.json())] chain rejects. *)
Inductive Failure :=
| NetworkError   (* [fetch] itself rejected *)
| BadJson.       (* [response.json()] rejected *)

Inductive Outcome :=
| Resolved (b : Body)
| Rejected (why : Failure).

Inductive Method := GET | POST.

(** The values of [ipAddress] and [port] a function closed over when the
    component rendered. *)
Record Closure := mkClosure {
  c_ipAddress : string;
  c_port : string
}.

(** Which handler chain is attached to a pending [fetch]. *)
Inductive Handler :=
| H_testConnection
| H_startAnalysis (env : Closure)   (* its [then] calls [fetchFFTData] *)
| H_stopAnalysis
| H_fetchFFTData.

Record Fetch := mkFetch {
  url : string;
  method : Method;
  cont : Handler
}.

(** What [setInterval(fetchFFTData, 1000)] registered. *)
Record Interval := mkInterval {
  callback : Closure;
  delay : Z
}.

Record AlertBox := mkAlert {
  title : string;
  message : string
}.

Record App := mkApp {
  (* useState cells *)
  showWelcome : bool;
  ipAddress : string;
  port : string;
  isConnected : bool;
  isAnalysisRunning : bool;
  fftData : option FFTData;
  loading : bool;
  (* runtime *)
  timer : option Interval;
  inflight : list Fetch;
  issued : list Fetch;
  alerts : list AlertBox;
  console : list string
}.

(** The component as first mounted. *)
Definition init : App :=
  mkApp true "10.141.192.169" "5000" false false None false
        None [] [] [] [].

(** ** Setters *)

Definition setShowWelcome (v : bool) (s : App) : App :=
  mkApp v (ipAddress s) (port s) (isConnected s) (isAnalysisRunning s)
        (fftData s) (loading s) (timer s) (inflight s) (issued s) (alerts s)
        (console s).

Definition setIpAddress (v : string) (s : App) : App :=
  mkApp (showWelcome s) v (port s) (isConnected s) (isAnalysisRunning s)
        (fftData s) (loading s) (timer s) (inflight s) (issued s) (alerts s)
        (console s).

Definition setPort (v : string) (s : App) : App :=
  mkApp (showWelcome s) (ipAddress s) v (isConnected s) (isAnalysisRunning s)
        (fftData s) (loading s) (timer s) (inflight s) (issued s) (alerts s)
        (console s).

Definition setIsConnected (v : bool) (s : App) : App :=
  mkApp (showWelcome s) (ipAddress s) (port s) v (isAnalysisRunning s)
        (fftData s) (loading s) (timer s) (inflight s) (issued s) (alerts s)
        (console s).

Definition setIsAnalysisRunning (v : bool) (s : App) : App :=
  mkApp (showWelcome s) (ipAddress s) (port s) (isConnected s) v
        (fftData s) (loading s) (timer s) (inflight s) (issued s) (alerts s)
        (console s).

Definition setFftData (v : option FFTData) (s : App) : App :=
  mkApp (showWelcome s) (ipAddress s) (port s) (isConnected s)
        (isAnalysisRunning s) v (loading s) (timer s) (inflight s) (issued s)
        (alerts s) (console s).

Definition setLoading (v : bool) (s : App) : App :=
  mkApp (showWelcome s) (ipAddress s) (port s) (isConnected s)
        (isAnalysisRunning s) (fftData s) v (timer s) (inflight s) (issued s)
        (alerts s) (console s).

Definition setTimer (v : option Interval) (s : App) : App :=
  mkApp (showWelcome s) (ipAddress s) (port s) (isConnected s)
        (isAnalysisRunning s) (fftData s) (loading s) v (inflight s)
        (issued s) (alerts s) (console s).

Definition setInflight (v : list Fetch) (s : App) : App :=
  mkApp (showWelcome s) (ipAddress s) (port s) (isConnected s)
        (isAnalysisRunning s) (fftData s) (loading s) (timer s) v
        (issued s) (alerts s) (console s).

(** ** Runtime calls *)

(** [fetch(u, {method: m})] with handler chain [k] attached: the call is
    logged and its promise is pending. *)
Definition fetch (u : string) (m : Method) (k : Handler) (s : App) : App :=
  mkApp (showWelcome s) (ipAddress s) (port s) (isConnected s)
        (isAnalysisRunning s) (fftData s) (loading s) (timer s)
        (inflight s ++ [mkFetch u m k]) (issued s ++ [mkFetch u m k])
        (alerts s) (console s).

(** [Alert.alert(t, m, ...)] *)
Definition alert (t m : string) (s : App) : App :=
  mkApp (showWelcome s) (ipAddress s) (port s) (isConnected s)
        (isAnalysisRunning s) (fftData s) (loading s) (timer s) (inflight s)
        (issued s) (alerts s ++ [mkAlert t m]) (console s).

(** [console.log(m)] *)
Definition console_log (m : string) (s : App) : App :=
  mkApp (showWelcome s) (ipAddress s) (port s) (isConnected s)
        (isAnalysisRunning s) (fftData s) (loading s) (timer s) (inflight s)
        (issued s) (alerts s) (console s ++ [m]).

(** The closure of the current render. *)
Definition closure (s : App) : Closure := mkClosure (ipAddress s) (port s).

(** [`http://${ipAddress}:${port}${path}`] *)
Definition endpoint (c : Closure) (path : string) : string :=
  "http://" ++ c_ipAddress c ++ ":" ++ c_port c ++ path.

(** ** Handlers *)

(** [fetchFFTData], as closed over [c]. *)
Definition fetchFFTData (c : Closure) (s : App) : App :=
  fetch (endpoint c "/api/fft/data") GET H_fetchFFTData s.

Definition fetchFFTData_then (data : FFTData) (s : App) : App :=
  setIsAnalysisRunning (is_running data) (setFftData (Some data) s).

Definition fetchFFTData_catch (s : App) : App :=
  console_log "Error fetching FFT data" s.

(** [testConnection] *)
Definition testConnection (s : App) : App :=
  fetch (endpoint (closure s) "/api/status") GET H_testConnection
        (setLoading true s).

Definition testConnection_then (data : StatusReply) (s : App) : App :=
  alert "Connection Successful!"
        ("Connected to server version " ++ version data ++ ".")
        (setIsAnalysisRunning (analysis_running data) (setIsConnected true s)).

Definition testConnection_catch (s : App) : App :=
  alert "Connection Failed"
        "Error connecting to server. Please check the IP address and port."
        (setIsConnected false s).

Definition testConnection_finally (s : App) : App := setLoading false s.

(** [startAnalysis] *)
Definition startAnalysis (s : App) : App :=
  fetch (endpoint (closure s) "/api/fft/start") POST
        (H_startAnalysis (closure s)) (setLoading true s).

Definition startAnalysis_then (env : Closure) (data : AckReply) (s : App)
  : App :=
  if success data
  then fetchFFTData env (setIsAnalysisRunning true s)
  else alert "Error" "Failed to start analysis" s.

Definition startAnalysis_catch (s : App) : App :=
  alert "Error" "Network error" s.

Definition startAnalysis_finally (s : App) : App := setLoading false s.

(** [stopAnalysis] *)
Definition stopAnalysis (s : App) : App :=
  fetch (endpoint (closure s) "/api/fft/stop") POST H_stopAnalysis
        (setLoading true s).

Definition stopAnalysis_then (data : AckReply) (s : App) : App :=
  if success data
  then setIsAnalysisRunning false s
  else alert "Error" "Failed to stop analysis" s.

Definition stopAnalysis_catch (s : App) : App :=
  alert "Error" "Network error" s.

Definition stopAnalysis_finally (s : App) : App := setLoading false s.

(** The Disconnect button's [onPress]. *)
Definition onPressDisconnect (s : App) : App := setIsConnected false s.

(** The control button's [onPress]:
    [isAnalysisRunning ? stopAnalysis : startAnalysis]. *)
Definition onPressControl (s : App) : App :=
  if isAnalysisRunning s then stopAnalysis s else startAnalysis s.

(** The handler chain of a settled [fetch], for a reply of the shape the
    endpoint's handler reads and for a rejection.  [None]: the body is of
    another handler's shape; such a reply, like any reply of a shape the
    handlers do not read, is outside the model. *)
Definition settle (f : Fetch) (o : Outcome) (s : App) : option App :=
  match cont f, o with
  | H_testConnection, Resolved (JStatus data) =>
      Some (testConnection_finally (testConnection_then data s))
  | H_testConnection, Rejected _ =>
      Some (testConnection_finally (testConnection_catch s))
  | H_startAnalysis env, Resolved (JAck data) =>
      Some (startAnalysis_finally (startAnalysis_then env data s))
  | H_startAnalysis _, Rejected _ =>
      Some (startAnalysis_finally (startAnalysis_catch s))
  | H_stopAnalysis, Resolved (JAck data) =>
      Some (stopAnalysis_finally (stopAnalysis_then data s))
  | H_stopAnalysis, Rejected _ =>
      Some (stopAnalysis_finally (stopAnalysis_catch s))
  | H_fetchFFTData, Resolved (JData data) =>
      Some (fetchFFTData_then data s)
  | H_fetchFFTData, Rejected _ =>
      Some (fetchFFTData_catch s)
  | _, _ => None
  end.

(** ** The polling effect

    [useEffect(..., [isConnected, isAnalysisRunning])] *)

Definition depsChanged (prev next : App) : bool :=
  negb (Bool.eqb (isConnected prev) (isConnected next)
        && Bool.eqb (isAnalysisRunning prev) (isAnalysisRunning next)).

(** The function the effect returned: [if (timer) clearInterval(timer)]. *)
Definition effectCleanup (s : App) : App := setTimer None s.

Definition effectBody (s : App) : App :=
  if isConnected s && isAnalysisRunning s
  then setTimer (Some (mkInterval (closure s) 1000))
                (fetchFFTData (closure s) s)
  else s.

(** Commit of the state [next] a handler produced from [prev]. *)
Definition commit (prev next : App) : App :=
  if depsChanged prev next then effectBody (effectCleanup next) else next.

(** ** Events *)

Inductive Screen := Welcome | Analysis | Connection.

(** The three [return]s of the render function. *)
Definition screen (s : App) : Screen :=
  if showWelcome s then Welcome
  else if isConnected s then Analysis
  else Connection.

Inductive Event :=
| TapWelcome
| TypeIp (v : string)
| TypePort (v : string)
| TapConnect
| TapDisconnect
| TapControl
| Tick
| Settle (n : nat) (o : Outcome).

Definition remove_nth {A} (n : nat) (l : list A) : list A :=
  firstn n l ++ skipn (S n) l.

(** The handler an event invokes.  [None]: the event cannot occur (its
    widget is not on the screen, no interval is registered, no such promise
    is pending).  A tap on a widget rendered with [disabled] set invokes
    nothing. *)
Definition handle (e : Event) (s : App) : option App :=
  match e, screen s with
  | TapWelcome, Welcome => Some (setShowWelcome false s)
  | TypeIp v, Connection => Some (setIpAddress v s)
  | TypePort v, Connection => Some (setPort v s)
  | TapConnect, Connection =>
      Some (if loading s then s else testConnection s)
  | TapDisconnect, Analysis => Some (onPressDisconnect s)
  | TapControl, Analysis =>
      Some (if loading s then s else onPressControl s)
  | Tick, _ =>
      match timer s with
      | Some i => Some (fetchFFTData (callback i) s)
      | None => None
      end
  | Settle n o, _ =>
      match nth_error (inflight s) n with
      | Some f => settle f o (setInflight (remove_nth n (inflight s)) s)
      | None => None
      end
  | _, _ => None
  end.

Definition step (e : Event) (s : App) : option App :=
  match handle e s with
  | Some next => Some (commit s next)
  | None => None
  end.

Fixpoint run (tr : list Event) (s : App) : option App :=
  match tr with
  | [] => Some s
  | e :: tr' =>
      match step e s with
      | Some s' => run tr' s'
      | None => None
      end
  end.

(** The seven state cells, as the render function sees them. *)
Definition cells (s : App)
  : bool * string * string * bool * bool * option FFTData * bool :=
  (showWelcome s, ipAddress s, port s, isConnected s, isAnalysisRunning s,
   fftData s, loading s).

(** The requests the handlers issue. *)
Definition statusRequest (c : Closure) : Fetch :=
  mkFetch (endpoint c "/api/status") GET H_testConnection.

Definition startRequest (c : Closure) : Fetch :=
  mkFetch (endpoint c "/api/fft/start") POST (H_startAnalysis c).

Definition stopRequest (c : Closure) : Fetch :=
  mkFetch (endpoint c "/api/fft/stop") POST H_stopAnalysis.

Definition dataRequest (c : Closure) : Fetch :=
  mkFetch (endpoint c "/api/fft/data") GET H_fetchFFTData.

(** States the component can be in: those some sequence of events leads to
    from the mounted component. *)
Definition reachable (s : App) : Prop := exists tr, run tr init = Some s.

(** The polling interval is registered exactly while the component is
    connected with the analysis running, and it calls the [fetchFFTData] of
    the current render every 1000 ms. *)
Definition scheduled (s : App) : Prop :=
  timer s =
  if isConnected s && isAnalysisRunning s
  then Some (mkInterval (closure s) 1000)
  else None.

(** The data requests among the [fetch] calls made so far. *)
Definition isDataRequest (f : Fetch) : bool :=
  match cont f with
  | H_fetchFFTData => true
  | _ => false
  end.

Definition polls (s : App) : list Fetch := filter isDataRequest (issued s).



(** The start and the stop requests among the [fetch] calls made so far. *)
Definition isStartRequest (f : Fetch) : bool :=
  match cont f with
  | H_startAnalysis _ => true
  | _ => false
  end.

Definition isStopRequest (f : Fetch) : bool :=
  match cont f with
  | H_stopAnalysis => true
  | _ => false
  end.

Definition starts (s : App) : list Fetch := filter isStartRequest (issued s).

Definition stops (s : App) : list Fetch := filter isStopRequest (issued s).

(** The condition of the polling effect:
    [isConnected && isAnalysisRunning]. *)
Definition polling (s : App) : bool := isConnected s && isAnalysisRunning s.

(** The connect, start and stop requests: those whose handler chain ends in
    [finally(() => setLoading(false))]. *)
Definition isControlRequest (f : Fetch) : bool := negb (isDataRequest f).

(** [loading] is set exactly while one connect, start or stop request is
    pending, and there is never more than one. *)
Definition busy (s : App) : Prop :=
  List.length (filter isControlRequest (inflight s))
  = if loading s then 1 else 0.

(** ** Rendering

    The three screens of the render function, without styles and static
    texts.  A number printed with [toFixed] is kept as the number and the
    digits asked for; the decimal string is not computed. *)

Record Fixed := mkFixed {
  fixed_value : number;
  fixed_digits : nat
}.

(** One element of [fftData.peak_data.map((peak, index) => ...)]. *)
Record PeakRow := mkPeakRow {
  row_key : nat;           (* [key={index}] *)
  row_number : nat;        (* [Peak {index + 1}] *)
  row_frequency : Fixed;   (* [peak.frequency.toFixed(2)] *)
  row_magnitude : Fixed    (* [peak.magnitude.toFixed(6)] *)
}.

Inductive PeaksView :=
| PeakRows (rows : list PeakRow)
| EmptyPeaks (text : string).

Inductive DataView :=
| Results (maxVoltage totalPower : Fixed) (peaks : PeaksView)
| EmptyText (text : string).

Record Button := mkButton {
  caption : string;
  disabled : bool
}.

Inductive View :=
| WelcomeScreen
| AnalysisScreen (control : Button) (data : DataView)
| ConnectionScreen (ipValue portValue : string) (connect : Button).

Fixpoint peakRows (index : nat) (l : list PeakData) : list PeakRow :=
  match l with
  | [] => []
  | peak :: rest =>
      mkPeakRow index (index + 1)
                (mkFixed (frequency peak) 2) (mkFixed (magnitude peak) 6)
      :: peakRows (S index) rest
  end.

(** [peak_data && peak_data.length > 0 ? peak_data.map(...) : ...] *)
Definition renderPeaks (l : list PeakData) : PeaksView :=
  if Nat.ltb 0 (List.length l) then PeakRows (peakRows 0 l)
  else EmptyPeaks "No peaks detected".

(** [fftData ? ... : ...] *)
Definition renderData (s : App) : DataView :=
  match fftData s with
  | Some d =>
      Results (mkFixed (max_voltage d) 4) (mkFixed (total_power d) 4)
              (renderPeaks (peak_data d))
  | None =>
      EmptyText (if isAnalysisRunning s then "Loading data..."
                 else "Start analysis to see data")
  end.

Definition render (s : App) : View :=
  if showWelcome s then WelcomeScreen
  else if isConnected s then
    AnalysisScreen
      (mkButton (if isAnalysisRunning s then "Stop Analysis"
                 else "Start Analysis")
                (loading s))
      (renderData s)
  else
    ConnectionScreen (ipAddress s) (port s) (mkButton "Connect" (loading s)).

(** The alert text of a start or stop request that did not succeed. *)
Definition errorText (k : Handler) (o : Outcome) : string :=
  match o, k with
  | Rejected _, _ => "Network error"
  | Resolved _, H_stopAnalysis => "Failed to stop analysis"
  | Resolved _, _ => "Failed to start analysis"
  end.

(** ** Sample runs *)

Definition idleServer : StatusReply := mkStatusReply "1.0" false.

Definition sample : FFTData :=
  mkFFTData 1.5%float
            [mkPeakData 50%float 0.25%float; mkPeakData 120%float 0.125%float]
            3.25%float 0.5%float true.

Definition sampleStopped : FFTData :=
  mkFFTData 2.5%float [] 0%float 0%float false.

(** Dismiss the welcome screen and connect to a server that reports an idle
    analysis. *)
Definition toConnected : list Event :=
  [TapWelcome; TapConnect; Settle 0 (Resolved (JStatus idleServer))].

(** ... then start the analysis: the start handler and the polling effect
    have each issued a data request. *)
Definition toRunning : list Event :=
  toConnected ++ [TapControl; Settle 0 (Resolved (JAck (mkAckReply true)))].

(** ... then receive the first snapshot. *)
Definition toSnapshot : list Event :=
  toRunning ++ [Settle 0 (Resolved (JData sample))].

(** The run used against C2: a poll is pending when Disconnect is pressed. *)
Definition toDisconnectedPolling : list Event := toRunning ++ [TapDisconnect].

(** The run used for C10: the analysis was started, and the first of the two
    pending polls reported that the device is not running. *)
Definition toStoppedByPoll : list Event :=
  toRunning ++ [Settle 0 (Resolved (JData sampleStopped))].

(** The run used against C4: the first connect attempt fails. *)
Definition toFailedConnect : list Event :=
  [TapWelcome; TapConnect; Settle 0 (Rejected NetworkError)].

(** The run used against C5: an empty host and port 70000 are typed before
    Connect is pressed. *)
Definition toBadEndpoint : list Event :=
  [TapWelcome; TypeIp ""; TypePort "70000"; TapConnect].

(** Further sample runs: a start request pending; a stop request pending
    beside a poll; a second connection made after a snapshot was received. *)
Definition runningServer : StatusReply := mkStatusReply "1.0" true.

Definition toStartPending : list Event := toConnected ++ [TapControl].

Definition toStopPending : list Event := toSnapshot ++ [TapControl].

Definition toReconnected : list Event :=
  [TapDisconnect; TapConnect; Settle 1 (Resolved (JStatus idleServer))].

(** The state a run from [init] ends in. *)
Definition after (tr : list Event) : App :=
  match run tr init with
  | Some s => s
  | None => init
  end.

(** ** The session vocabulary of the specification

    The component has no counterpart of these two types; they only serve to
    state what a view of the component's state cells as a session cannot
    do. *)

Inductive SessionStatus := Disconnected | Connecting | Connected | ConnectionFailed.

Inductive ErrorKind := NetworkUnreachable | ProtocolError | InvalidEndpoint.

(** * Properties *)

(** ** Stepping lemmas *)

Lemma step_settle (n : nat) (o : Outcome) (f : Fetch) (s : App) :
  nth_error (inflight s) n = Some f ->
  step (Settle n o) s =
  match settle f o (setInflight (remove_nth n (inflight s)) s) with
  | Some next => Some (commit s next)
  | None => None
  end.
Proof.
  intros H. unfold step, handle. now rewrite H.
Qed.

Lemma step_tick_on (i : Interval) (s : App) :
  timer s = Some i ->
  step Tick s = Some (fetchFFTData (callback i) s).
Proof.
  intros H. unfold step, handle. rewrite H.
  unfold commit, depsChanged. cbn.
  now rewrite !Bool.eqb_reflx.
Qed.

Lemma step_tick_off (s : App) :
  timer s = None -> step Tick s = None.
Proof.
  intros H. unfold step, handle. now rewrite H.
Qed.

Lemma screen_Analysis (s : App) :
  screen s = Analysis <-> showWelcome s = false /\ isConnected s = true.
Proof.
  unfold screen. destruct (showWelcome s), (isConnected s); intuition congruence.
Qed.

Lemma screen_Connection (s : App) :
  screen s = Connection <-> showWelcome s = false /\ isConnected s = false.
Proof.
  unfold screen. destruct (showWelcome s), (isConnected s); intuition congruence.
Qed.

(** A commit that leaves both dependencies as they were runs no effect. *)
Lemma commit_same_deps (prev next : App) :
  isConnected next = isConnected prev ->
  isAnalysisRunning next = isAnalysisRunning prev ->
  commit prev next = next.
Proof.
  intros H1 H2. unfold commit, depsChanged.
  now rewrite H1, H2, !Bool.eqb_reflx.
Qed.

(** ** The scheduler invariant *)

Lemma commit_scheduled (prev next : App) :
  scheduled prev ->
  timer next = timer prev ->
  (isConnected next = true -> closure next = closure prev) ->
  scheduled (commit prev next).
Proof.
  unfold scheduled, commit, depsChanged, effectBody, effectCleanup, closure.
  destruct prev, next; cbn; intros Hp Ht Hc; subst.
  repeat match goal with b : bool |- _ => destruct b end; cbn in *;
    try reflexivity; try (rewrite Hc by reflexivity; reflexivity).
Qed.

Lemma settle_frame (f : Fetch) (o : Outcome) (s next : App) :
  settle f o s = Some next ->
  timer next = timer s /\ closure next = closure s.
Proof.
  unfold settle.
  destruct (cont f) as [ | env | | ], o as [[d | [ok] | d] | why];
    try discriminate; intros H; injection H as <-;
    try destruct ok; cbn; auto.
Qed.

Lemma handle_frame (e : Event) (s next : App) :
  handle e s = Some next ->
  timer next = timer s /\
  (isConnected next = true -> closure next = closure s).
Proof.
  unfold handle, screen, onPressControl.
  destruct e as [ | v | v | | | | | n o];
    destruct (showWelcome s), (isConnected s) eqn:C; try discriminate;
    repeat match goal with
      | |- context [match timer s with _ => _ end] =>
          destruct (timer s) eqn:T; [ | discriminate]
      | |- context [nth_error ?l ?k] =>
          destruct (nth_error l k); [ | discriminate]
      | |- context [if loading s then _ else _] => destruct (loading s)
      | |- context [if isAnalysisRunning s then _ else _] =>
          destruct (isAnalysisRunning s)
      end;
    intros H;
    first [ injection H as <-; split;
            [ first [ reflexivity | cbn; congruence ]
            | intros E; first [ reflexivity | cbn in E; congruence ] ]
          | destruct (settle_frame _ _ _ _ H) as [Ht Hc]; split;
            [ exact Ht | intros _; exact Hc ] ].
Qed.

Lemma step_scheduled (e : Event) (s s' : App) :
  scheduled s -> step e s = Some s' -> scheduled s'.
Proof.
  unfold step. intros Hs.
  destruct (handle e s) as [next | ] eqn:H; try discriminate.
  intros E; injection E as <-.
  apply handle_frame in H. destruct H as [Ht Hc].
  now apply commit_scheduled.
Qed.

Lemma run_scheduled (tr : list Event) : forall s s',
  scheduled s -> run tr s = Some s' -> scheduled s'.
Proof.
  induction tr as [ | e tr IH]; cbn; intros s s' Hs H.
  - now injection H as <-.
  - destruct (step e s) as [s1 | ] eqn:E; try discriminate.
    eapply IH; [ eapply step_scheduled; eauto | exact H ].
Qed.

Lemma reachable_scheduled (s : App) : reachable s -> scheduled s.
Proof.
  intros [tr H]. eapply run_scheduled; [ | exact H ]. reflexivity.
Qed.

(** ** Disconnect *)

(** C1, as stated, fails.  After connecting, starting the analysis and
    receiving one snapshot, pressing Disconnect leaves [isAnalysisRunning]
    set and keeps the snapshot in [fftData]: the handler is
    [setIsConnected(false)] and nothing else. *)
Lemma disconnect_keeps_acquisition_and_snapshot :
  run toSnapshot init = Some (after toSnapshot) /\
  exists s',
    step TapDisconnect (after toSnapshot) = Some s' /\
    isConnected s' = false /\
    isAnalysisRunning s' = true /\
    fftData s' = Some sample.
Proof.
  split; [ vm_compute; reflexivity | ].
  exists (after (toSnapshot ++ [TapDisconnect])).
  vm_compute. repeat split.
Qed.

(** The Disconnect button's transition. *)
Lemma step_disconnect (s : App) :
  screen s = Analysis ->
  exists s',
    step TapDisconnect s = Some s' /\
    isConnected s' = false /\
    timer s' = None /\
    isAnalysisRunning s' = isAnalysisRunning s /\
    fftData s' = fftData s /\
    inflight s' = inflight s /\
    issued s' = issued s.
Proof.
  intros H. apply screen_Analysis in H as [W C].
  unfold step, handle, screen. rewrite W, C.
  eexists. split; [ reflexivity | ].
  unfold commit, depsChanged, onPressDisconnect, effectBody, effectCleanup.
  cbn. rewrite C. cbn. repeat split.
Qed.

(** C1, amended.  In every state (whatever the acquisition flag, the
    snapshot and the pending requests are) the Disconnect handler sets
    [isConnected] to false and leaves [isAnalysisRunning] and [fftData] as
    they were; no pending request is cancelled and none is issued, and if
    the component was connected the polling interval is cleared.  Whenever
    the Disconnect button is on the screen, pressing it is this
    transition. *)
Theorem disconnect_resets_connection_only (s : App) :
  let s' := commit s (onPressDisconnect s) in
  (screen s = Analysis -> step TapDisconnect s = Some s') /\
  isConnected s' = false /\
  isAnalysisRunning s' = isAnalysisRunning s /\
  fftData s' = fftData s /\
  inflight s' = inflight s /\
  issued s' = issued s /\
  (isConnected s = true -> timer s' = None).
Proof.
  intros s'. subst s'. split.
  - intros H. unfold step, handle. now rewrite H.
  - unfold commit, depsChanged, onPressDisconnect, effectBody, effectCleanup.
    cbn. rewrite Bool.eqb_reflx, Bool.andb_true_r.
    destruct (isConnected s); cbn; repeat split; discriminate.
Qed.

Lemma disconnect_resets_connection_only_witness :
  screen (after toSnapshot) = Analysis /\
  isConnected (after toSnapshot) = true /\
  isAnalysisRunning (after toSnapshot) = true /\
  fftData (after toSnapshot) = Some sample /\
  let s' := commit (after toSnapshot) (onPressDisconnect (after toSnapshot)) in
  (screen (after toSnapshot) = Analysis ->
   step TapDisconnect (after toSnapshot) = Some s') /\
  isConnected s' = false /\
  isAnalysisRunning s' = isAnalysisRunning (after toSnapshot) /\
  fftData s' = fftData (after toSnapshot) /\
  inflight s' = inflight (after toSnapshot) /\
  issued s' = issued (after toSnapshot) /\
  (isConnected (after toSnapshot) = true -> timer s' = None).
Proof.
  do 4 (split; [ vm_compute; reflexivity | ]).
  exact (disconnect_resets_connection_only (after toSnapshot)).
Defined.

(** ** Poll responses *)

(** What the [then] handler of [fetchFFTData] does in any state: the body
    replaces [fftData] and its [is_running] replaces [isAnalysisRunning]. *)
Lemma step_poll_resolved (n : nat) (f : Fetch) (d : FFTData) (s : App) :
  nth_error (inflight s) n = Some f ->
  cont f = H_fetchFFTData ->
  exists s',
    step (Settle n (Resolved (JData d))) s = Some s' /\
    fftData s' = Some d /\
    isAnalysisRunning s' = is_running d /\
    isConnected s' = isConnected s /\
    loading s' = loading s /\
    showWelcome s' = showWelcome s /\
    alerts s' = alerts s /\
    console s' = console s /\
    timer s' =
      (if Bool.eqb (isAnalysisRunning s) (is_running d) then timer s
       else if isConnected s && is_running d
            then Some (mkInterval (closure s) 1000)
            else None) /\
    issued s' =
      (if Bool.eqb (isAnalysisRunning s) (is_running d) then issued s
       else if isConnected s && is_running d
            then (issued s ++ [dataRequest (closure s)])%list
            else issued s).
Proof.
  intros Hn Hf. rewrite (step_settle _ _ _ _ Hn).
  unfold settle. rewrite Hf.
  eexists. split; [ reflexivity | ].
  unfold commit, depsChanged, effectBody, effectCleanup, fetchFFTData_then.
  cbn. rewrite Bool.eqb_reflx. cbn.
  destruct (Bool.eqb (isAnalysisRunning s) (is_running d)); cbn;
    [ repeat split | ].
  destruct (isConnected s) eqn:C, (is_running d); cbn; rewrite ?C;
    repeat split.
Qed.


(** C2, as stated, fails.  A data request is pending when Disconnect is
    pressed and [fftData] is still empty; when the response arrives
    afterwards it is stored in [fftData].  The source has no epoch counter
    and [fetchFFTData]'s [then] handler checks nothing. *)
Lemma late_poll_response_overwrites_snapshot :
  run toDisconnectedPolling init = Some (after toDisconnectedPolling) /\
  isConnected (after toDisconnectedPolling) = false /\
  fftData (after toDisconnectedPolling) = None /\
  nth_error (inflight (after toDisconnectedPolling)) 0
    = Some (dataRequest (closure (after toDisconnectedPolling))) /\
  exists s',
    step (Settle 0 (Resolved (JData sample))) (after toDisconnectedPolling)
      = Some s' /\
    fftData s' = Some sample.
Proof.
  repeat (split; [ vm_compute; reflexivity | ]).
  exists (after (toDisconnectedPolling ++ [Settle 0 (Resolved (JData sample))])).
  vm_compute. repeat split.
Qed.

(** C2, amended.  A poll that is pending when Disconnect is pressed stays
    pending, and its response, when it arrives, is applied like any other:
    [fftData] becomes the received snapshot and [isAnalysisRunning] its
    [is_running] field.  The component stays disconnected, so no interval
    is registered and no request is issued. *)
Theorem poll_response_after_disconnect_is_applied
    (n : nat) (f : Fetch) (d : FFTData) (s : App) :
  screen s = Analysis ->
  nth_error (inflight s) n = Some f ->
  cont f = H_fetchFFTData ->
  exists s1 s2,
    step TapDisconnect s = Some s1 /\
    nth_error (inflight s1) n = Some f /\
    step (Settle n (Resolved (JData d))) s1 = Some s2 /\
    fftData s2 = Some d /\
    isAnalysisRunning s2 = is_running d /\
    isConnected s2 = false /\
    timer s2 = None /\
    issued s2 = issued s.
Proof.
  intros Hscr Hn Hf.
  destruct (step_disconnect s Hscr)
    as (s1 & E1 & C1 & T1 & _ & _ & I1 & L1).
  assert (Hn1 : nth_error (inflight s1) n = Some f) by now rewrite I1.
  destruct (step_poll_resolved n f d s1 Hn1 Hf)
    as (s2 & E2 & F2 & A2 & C2 & _ & _ & _ & _ & T2 & L2).
  exists s1, s2. repeat split; try assumption.
  - now rewrite C2.
  - rewrite T2, T1, C1. now destruct (Bool.eqb _ _).
  - rewrite L2, C1, L1. now destruct (Bool.eqb _ _).
Qed.

Lemma poll_response_after_disconnect_is_applied_witness :
  screen (after toRunning) = Analysis /\
  nth_error (inflight (after toRunning)) 1
    = Some (dataRequest (closure (after toRunning))) /\
  exists s1 s2,
    step TapDisconnect (after toRunning) = Some s1 /\
    nth_error (inflight s1) 1
      = Some (dataRequest (closure (after toRunning))) /\
    step (Settle 1 (Resolved (JData sample))) s1 = Some s2 /\
    fftData s2 = Some sample /\
    isAnalysisRunning s2 = is_running sample /\
    isConnected s2 = false /\
    timer s2 = None /\
    issued s2 = issued (after toRunning).
Proof.
  split; [ vm_compute; reflexivity | ].
  split; [ vm_compute; reflexivity | ].
  apply (poll_response_after_disconnect_is_applied
           1 (dataRequest (closure (after toRunning))) sample (after toRunning));
    vm_compute; reflexivity.
Defined.












(** C10.  After every successful poll [isAnalysisRunning] equals the
    [is_running] field of the snapshot just received and [fftData] holds
    that snapshot; in particular there is a reachable state, connected and
    not running, in which a poll response switches the analysis to running
    and thereby registers the polling interval again. *)
Theorem poll_sets_running_flag :
  (forall (n : nat) (f : Fetch) (d : FFTData) (s : App),
      nth_error (inflight s) n = Some f ->
      cont f = H_fetchFFTData ->
      exists s',
        step (Settle n (Resolved (JData d))) s = Some s' /\
        isAnalysisRunning s' = is_running d /\
        fftData s' = Some d) /\
  (exists s s',
      reachable s /\
      isConnected s = true /\
      isAnalysisRunning s = false /\
      timer s = None /\
      step (Settle 0 (Resolved (JData sample))) s = Some s' /\
      isAnalysisRunning s' = true /\
      timer s' = Some (mkInterval (closure s) 1000)).
Proof.
  split.
  - intros n f d s Hn Hf.
    destruct (step_poll_resolved n f d s Hn Hf) as (s' & E & F' & A' & _).
    exists s'. auto.
  - exists (after toStoppedByPoll),
           (after (toStoppedByPoll ++ [Settle 0 (Resolved (JData sample))])).
    split; [ exists toStoppedByPoll; vm_compute; reflexivity | ].
    vm_compute. repeat split.
Qed.

Lemma poll_sets_running_flag_witness :
  nth_error (inflight (after toStoppedByPoll)) 0
    = Some (dataRequest (closure (after toStoppedByPoll))) /\
  isAnalysisRunning (after toStoppedByPoll) = false /\
  exists s',
    step (Settle 0 (Resolved (JData sample))) (after toStoppedByPoll)
      = Some s' /\
    isAnalysisRunning s' = is_running sample /\
    fftData s' = Some sample.
Proof.
  split; [ vm_compute; reflexivity | ].
  split; [ vm_compute; reflexivity | ].
  apply (proj1 poll_sets_running_flag
           0 (dataRequest (closure (after toStoppedByPoll))) sample
           (after toStoppedByPoll));
    vm_compute; reflexivity.
Defined.

(** ** Connect *)

(** C9.  When the status request of a connect attempt succeeds,
    [isConnected] becomes true and [isAnalysisRunning] becomes the
    [analysis_running] field the server reported (so a server reporting
    [{version: "1.0", analysis_running: false}] leaves the component
    connected and not running); [loading] is cleared and the success alert
    names the reported version. *)
Theorem connect_success_records_server_state
    (n : nat) (f : Fetch) (d : StatusReply) (s : App) :
  nth_error (inflight s) n = Some f ->
  cont f = H_testConnection ->
  exists s',
    step (Settle n (Resolved (JStatus d))) s = Some s' /\
    isConnected s' = true /\
    isAnalysisRunning s' = analysis_running d /\
    loading s' = false /\
    fftData s' = fftData s /\
    alerts s' =
      (alerts s ++
       [mkAlert "Connection Successful!"
                ("Connected to server version " ++ version d ++ ".")])%list.
Proof.
  intros Hn Hf. rewrite (step_settle _ _ _ _ Hn).
  unfold settle. rewrite Hf.
  eexists. split; [ reflexivity | ].
  unfold commit, effectBody, effectCleanup.
  destruct (depsChanged _ _); cbn; [ | repeat split ].
  destruct (analysis_running d) eqn:R; cbn; rewrite ?R; repeat split.
Qed.

Lemma connect_success_records_server_state_witness :
  nth_error (inflight (after [TapWelcome; TapConnect])) 0
    = Some (statusRequest (closure init)) /\
  exists s',
    step (Settle 0 (Resolved (JStatus idleServer)))
         (after [TapWelcome; TapConnect]) = Some s' /\
    isConnected s' = true /\
    isAnalysisRunning s' = false /\
    loading s' = false /\
    fftData s' = None /\
    alerts s' =
      [mkAlert "Connection Successful!" "Connected to server version 1.0."].
Proof.
  split; [ vm_compute; reflexivity | ].
  apply (connect_success_records_server_state
           0 (statusRequest (closure init)) idleServer
           (after [TapWelcome; TapConnect]));
    vm_compute; reflexivity.
Defined.

(** The Connect button's transition when it is enabled. *)
Lemma step_connect (s : App) :
  screen s = Connection ->
  loading s = false ->
  step TapConnect s = Some (testConnection s).
Proof.
  intros Hscr L. unfold step, handle. rewrite Hscr, L.
  now rewrite commit_same_deps.
Qed.

(** C4, as stated, fails.  After a connect attempt that failed because the
    host was unreachable, the component's state cells are exactly those of
    the disconnected component before the attempt, and the whole state is
    the one a failure to decode the body leads to.  So no reading of the
    state as a session can report [Disconnected] with no error before the
    attempt and [ConnectionFailed] with [NetworkUnreachable] after it. *)
Lemma failed_connect_is_plain_disconnected :
  run toFailedConnect init = Some (after toFailedConnect) /\
  cells (after toFailedConnect) = cells (after [TapWelcome]) /\
  after toFailedConnect
    = after [TapWelcome; TapConnect; Settle 0 (Rejected BadJson)] /\
  ~ (exists view : bool * string * string * bool * bool * option FFTData * bool
                   -> SessionStatus * option ErrorKind,
        view (cells (after [TapWelcome])) = (Disconnected, None) /\
        view (cells (after toFailedConnect))
          = (ConnectionFailed, Some NetworkUnreachable)).
Proof.
  assert (E : cells (after toFailedConnect) = cells (after [TapWelcome]))
    by (vm_compute; reflexivity).
  repeat (split; [ vm_compute; reflexivity | ]).
  intros (view & H0 & H1). rewrite E, H0 in H1. discriminate.
Qed.

(** C4, amended.  When the status request of a connect attempt fails, for
    whichever reason, [isConnected] and [loading] become false, the
    "Connection Failed" alert is raised, and [isAnalysisRunning] and
    [fftData] keep their values; the outcome is the same for an unreachable
    host and for an undecodable body, so no error kind is recorded.  With
    the connection screen showing, the Connect button is enabled again and
    pressing it issues a fresh status request. *)
Theorem connect_failure_alerts_and_allows_retry
    (n : nat) (f : Fetch) (why : Failure) (s : App) :
  nth_error (inflight s) n = Some f ->
  cont f = H_testConnection ->
  showWelcome s = false ->
  exists s',
    step (Settle n (Rejected why)) s = Some s' /\
    isConnected s' = false /\
    loading s' = false /\
    isAnalysisRunning s' = isAnalysisRunning s /\
    fftData s' = fftData s /\
    issued s' = issued s /\
    alerts s' =
      (alerts s ++
       [mkAlert "Connection Failed"
          "Error connecting to server. Please check the IP address and port."])%list /\
    step (Settle n (Rejected NetworkError)) s = Some s' /\
    step (Settle n (Rejected BadJson)) s = Some s' /\
    exists s'',
      step TapConnect s' = Some s'' /\
      loading s'' = true /\
      issued s'' = (issued s' ++ [statusRequest (closure s')])%list.
Proof.
  intros Hn Hf W. rewrite !(step_settle _ _ _ _ Hn).
  unfold settle. rewrite Hf.
  eexists. split; [ reflexivity | ].
  assert (Hc : forall next,
             isConnected next = false ->
             commit s next = next \/ commit s next = setTimer None next).
  { intros next C. unfold commit, effectBody, effectCleanup.
    destruct (depsChanged s next); [ right | now left ].
    cbn. now rewrite C. }
  match goal with |- context [commit s ?next] =>
    destruct (Hc next eq_refl) as [-> | ->] end;
    (repeat split;
     eexists; split;
     [ apply step_connect; [ apply screen_Connection; split; [ exact W | reflexivity ] | reflexivity ]
     | split; reflexivity ]).
Qed.

Lemma connect_failure_alerts_and_allows_retry_witness :
  nth_error (inflight (after [TapWelcome; TapConnect])) 0
    = Some (statusRequest (closure init)) /\
  showWelcome (after [TapWelcome; TapConnect]) = false /\
  exists s',
    step (Settle 0 (Rejected NetworkError)) (after [TapWelcome; TapConnect])
      = Some s' /\
    isConnected s' = false /\
    loading s' = false /\
    isAnalysisRunning s' = false /\
    fftData s' = None /\
    issued s' = [statusRequest (closure init)] /\
    alerts s' =
      [mkAlert "Connection Failed"
          "Error connecting to server. Please check the IP address and port."] /\
    step (Settle 0 (Rejected NetworkError)) (after [TapWelcome; TapConnect])
      = Some s' /\
    step (Settle 0 (Rejected BadJson)) (after [TapWelcome; TapConnect])
      = Some s' /\
    exists s'',
      step TapConnect s' = Some s'' /\
      loading s'' = true /\
      issued s'' = (issued s' ++ [statusRequest (closure s')])%list.
Proof.
  split; [ vm_compute; reflexivity | ].
  split; [ vm_compute; reflexivity | ].
  apply (connect_failure_alerts_and_allows_retry
           0 (statusRequest (closure init)) NetworkError
           (after [TapWelcome; TapConnect]));
    vm_compute; reflexivity.
Defined.

(** C5, as stated, fails.  With an empty host and port 70000 typed in,
    pressing Connect calls [fetch] on [http://:70000/api/status]; nothing is
    rejected beforehand and no alert is raised. *)
Lemma bad_endpoint_is_requested :
  run toBadEndpoint init = Some (after toBadEndpoint) /\
  ipAddress (after toBadEndpoint) = "" /\
  port (after toBadEndpoint) = "70000" /\
  issued (after toBadEndpoint)
    = [mkFetch "http://:70000/api/status" GET H_testConnection] /\
  inflight (after toBadEndpoint)
    = [mkFetch "http://:70000/api/status" GET H_testConnection] /\
  alerts (after toBadEndpoint) = [] /\
  loading (after toBadEndpoint) = true.
Proof.
  vm_compute. repeat split.
Qed.

(** C5, amended.  [testConnection] validates nothing: whatever host and
    port strings are typed on the connection screen (an empty host and a
    port outside 1-65535 included), pressing the enabled Connect button sets
    [loading] and calls [fetch] on [http://{host}:{port}/api/status],
    without raising an alert. *)
Theorem connect_requests_any_endpoint (host prt : string) (s : App) :
  screen s = Connection ->
  loading s = false ->
  exists s1 s2 s3,
    step (TypeIp host) s = Some s1 /\
    step (TypePort prt) s1 = Some s2 /\
    step TapConnect s2 = Some s3 /\
    issued s3 =
      (issued s ++
       [mkFetch ("http://" ++ host ++ ":" ++ prt ++ "/api/status")
                GET H_testConnection])%list /\
    inflight s3 =
      (inflight s ++
       [mkFetch ("http://" ++ host ++ ":" ++ prt ++ "/api/status")
                GET H_testConnection])%list /\
    alerts s3 = alerts s /\
    loading s3 = true.
Proof.
  intros Hscr L. pose proof Hscr as Hs. apply screen_Connection in Hs as [W C].
  exists (setIpAddress host s), (setPort prt (setIpAddress host s)),
         (testConnection (setPort prt (setIpAddress host s))).
  split; [ | split; [ | split ] ].
  - unfold step, handle. rewrite Hscr. now rewrite commit_same_deps.
  - unfold step, handle, screen. cbn. rewrite W, C.
    now rewrite commit_same_deps.
  - apply step_connect; [ | exact L ].
    apply screen_Connection. split; [ exact W | exact C ].
  - repeat split.
Qed.

Lemma connect_requests_any_endpoint_witness :
  screen (after [TapWelcome]) = Connection /\
  loading (after [TapWelcome]) = false /\
  exists s1 s2 s3,
    step (TypeIp "") (after [TapWelcome]) = Some s1 /\
    step (TypePort "70000") s1 = Some s2 /\
    step TapConnect s2 = Some s3 /\
    issued s3 =
      (issued (after [TapWelcome]) ++
       [mkFetch ("http://" ++ "" ++ ":" ++ "70000" ++ "/api/status")
                GET H_testConnection])%list /\
    inflight s3 =
      (inflight (after [TapWelcome]) ++
       [mkFetch ("http://" ++ "" ++ ":" ++ "70000" ++ "/api/status")
                GET H_testConnection])%list /\
    alerts s3 = alerts (after [TapWelcome]) /\
    loading s3 = true.
Proof.
  split; [ vm_compute; reflexivity | ].
  split; [ vm_compute; reflexivity | ].
  apply (connect_requests_any_endpoint "" "70000" (after [TapWelcome]));
    vm_compute; reflexivity.
Defined.

(** ** The polling scheduler *)

(** A commit never touches the state cells. *)
Lemma commit_cells (prev next : App) : cells (commit prev next) = cells next.
Proof.
  unfold commit, effectBody, effectCleanup.
  destruct (depsChanged prev next); [ | reflexivity ].
  cbn. now destruct (isConnected next && isAnalysisRunning next).
Qed.

(** The commit that makes "connected and running" true runs the effect
    body: one data request at once, and the interval. *)
Lemma commit_enters_polling (prev next : App) :
  isConnected prev && isAnalysisRunning prev = false ->
  isConnected next && isAnalysisRunning next = true ->
  issued (commit prev next)
    = (issued next ++ [dataRequest (closure next)])%list /\
  timer (commit prev next) = Some (mkInterval (closure next) 1000).
Proof.
  unfold commit, depsChanged, effectBody, effectCleanup.
  destruct prev, next; cbn.
  repeat match goal with b : bool |- _ => destruct b end; cbn;
    intros; try discriminate; split; reflexivity.
Qed.

(** A successful start issues two data requests at once: one by the [then]
    handler of [startAnalysis], one by the effect body. *)
Lemma start_success_issues_two_polls :
  polls (after toConnected) = [] /\
  polls (after toRunning)
    = [dataRequest (closure (after toConnected));
       dataRequest (closure (after toConnected))].
Proof.
  vm_compute. split; reflexivity.
Qed.

(** * Further properties of the component *)

Lemma remove_nth_cons {A} (n : nat) (a : A) (l : list A) :
  remove_nth (S n) (a :: l) = a :: remove_nth n l.
Proof. reflexivity. Qed.

Lemma filter_remove_nth {A} (p : A -> bool) (n : nat) (x : A) : forall l,
  nth_error l n = Some x ->
  List.length (filter p l)
  = (if p x then 1 else 0) + List.length (filter p (remove_nth n l)).
Proof.
  induction n as [ | n IH]; intros [ | a l] H; try discriminate.
  - cbn in H. injection H as ->. unfold remove_nth. cbn.
    now destruct (p x).
  - cbn in H. rewrite remove_nth_cons. cbn.
    destruct (p a); cbn; rewrite (IH l H); destruct (p x); reflexivity.
Qed.

Lemma filter_snoc_data (l : list Fetch) (f : Fetch) :
  isControlRequest f = false ->
  filter isControlRequest (l ++ [f]) = filter isControlRequest l.
Proof.
  intros H. rewrite filter_app. cbn. rewrite H. apply app_nil_r.
Qed.

Lemma commit_busy (prev next : App) : busy next -> busy (commit prev next).
Proof.
  unfold busy, commit, effectBody, effectCleanup. intros H.
  destruct (depsChanged prev next); [ | exact H ].
  cbn. destruct (isConnected next && isAnalysisRunning next); cbn;
    [ | exact H ].
  now rewrite filter_snoc_data.
Qed.

Lemma settle_busy (n : nat) (f : Fetch) (o : Outcome) (s next : App) :
  busy s ->
  nth_error (inflight s) n = Some f ->
  settle f o (setInflight (remove_nth n (inflight s)) s) = Some next ->
  busy next.
Proof.
  unfold busy. intros B Hn.
  rewrite (filter_remove_nth isControlRequest n f _ Hn) in B.
  unfold isControlRequest at 1, isDataRequest in B.
  unfold settle, startAnalysis_then, stopAnalysis_then.
  destruct (cont f) as [ | env | | ], o as [[d | [ok] | d] | why];
    try discriminate; intros H; injection H as <-;
    try destruct ok; cbn in *;
    try rewrite filter_snoc_data by reflexivity;
    destruct (loading s); cbn in *; congruence.
Qed.

Lemma handle_busy (e : Event) (s next : App) :
  busy s -> handle e s = Some next -> busy next.
Proof.
  intros B. unfold handle, onPressControl.
  destruct e as [ | v | v | | | | | n o];
    destruct (screen s); try discriminate;
    repeat match goal with
      | |- context [match timer s with _ => _ end] =>
          destruct (timer s); [ | discriminate]
      | |- context [nth_error ?l ?k] =>
          destruct (nth_error l k) eqn:Hn; [ | discriminate]
      | |- context [if loading s then _ else _] => destruct (loading s) eqn:L
      | |- context [if isAnalysisRunning s then _ else _] =>
          destruct (isAnalysisRunning s)
      end;
    intros H;
    first [ eapply settle_busy; eassumption
          | injection H as <-; unfold busy in *; cbn;
            rewrite ?L in *;
            first [ exact B
                  | rewrite filter_snoc_data by reflexivity; exact B
                  | rewrite filter_app, length_app, B; reflexivity ] ].
Qed.

Lemma step_busy (e : Event) (s s' : App) :
  busy s -> step e s = Some s' -> busy s'.
Proof.
  unfold step. intros B.
  destruct (handle e s) as [next | ] eqn:H; [ | discriminate ].
  intros E; injection E as <-.
  apply commit_busy. eapply handle_busy; eauto.
Qed.

Lemma run_busy (tr : list Event) : forall s s',
  busy s -> run tr s = Some s' -> busy s'.
Proof.
  induction tr as [ | e tr IH]; cbn; intros s s' B H.
  - now injection H as <-.
  - destruct (step e s) as [s1 | ] eqn:E; [ | discriminate ].
    eapply IH; [ eapply step_busy; eauto | exact H ].
Qed.

Lemma reachable_busy (s : App) : reachable s -> busy s.
Proof.
  intros [tr H]. eapply run_busy; [ | exact H ]. reflexivity.
Qed.

Lemma pending_control_loading (n : nat) (f : Fetch) (s : App) :
  busy s ->
  nth_error (inflight s) n = Some f ->
  isControlRequest f = true ->
  loading s = true.
Proof.
  unfold busy. intros B Hn Hf.
  rewrite (filter_remove_nth isControlRequest n f _ Hn), Hf in B.
  destruct (loading s); [ reflexivity | discriminate ].
Qed.

(** Only the [then] handler of [testConnection] sets [isConnected]. *)
Lemma settle_connects (f : Fetch) (o : Outcome) (s next : App) :
  settle f o s = Some next ->
  isConnected s = false ->
  isConnected next = true ->
  cont f = H_testConnection /\ exists d, o = Resolved (JStatus d).
Proof.
  unfold settle, startAnalysis_then, stopAnalysis_then.
  destruct (cont f) as [ | env | | ], o as [[d | [ok] | d] | why];
    try discriminate; intros H; injection H as <-;
    try destruct ok; cbn; intros C C'; try congruence.
  split; [ reflexivity | now exists d ].
Qed.

Lemma commit_isConnected (prev next : App) :
  isConnected (commit prev next) = isConnected next.
Proof.
  pose proof (commit_cells prev next) as H. unfold cells in H.
  now injection H.
Qed.

(** X2.  Among the events of the model (replies of the shape their handler
    reads, and rejections), the only transition of a reachable state that
    makes [isConnected] true is the arrival of a successful response to a
    pending status request; [loading] was set when it arrived, and
    [isAnalysisRunning] becomes what the response reports. *)
Theorem connected_only_by_status_response (e : Event) (s s' : App) :
  reachable s ->
  step e s = Some s' ->
  isConnected s = false ->
  isConnected s' = true ->
  loading s = true /\
  exists n f d,
    e = Settle n (Resolved (JStatus d)) /\
    nth_error (inflight s) n = Some f /\
    cont f = H_testConnection /\
    isAnalysisRunning s' = analysis_running d.
Proof.
  intros R E C C'. unfold step in E.
  destruct (handle e s) as [next | ] eqn:H; [ | discriminate ].
  injection E as <-. rewrite commit_isConnected in C'.
  assert (A : isAnalysisRunning (commit s next) = isAnalysisRunning next).
  { pose proof (commit_cells s next) as Hc. unfold cells in Hc.
    now injection Hc. }
  rewrite A. clear A.
  revert H. unfold handle, onPressControl, screen. rewrite C.
  destruct e as [ | v | v | | | | | n o];
    destruct (showWelcome s); try discriminate;
    repeat match goal with
      | |- context [match timer s with _ => _ end] =>
          destruct (timer s); [ | discriminate]
      | |- context [nth_error ?l ?k] =>
          destruct (nth_error l k) as [f | ] eqn:Hn; [ | discriminate]
      | |- context [if loading s then _ else _] => destruct (loading s) eqn:L
      end;
    intros H;
    try (injection H as <-; cbn in C'; congruence).
  all: destruct (settle_connects _ _ _ _ H C C') as [Hf [d ->]];
       (split;
        [ apply (pending_control_loading n f s (reachable_busy s R) Hn);
          unfold isControlRequest, isDataRequest; now rewrite Hf
        | exists n, f, d; repeat split; try assumption;
          unfold settle in H; rewrite Hf in H; injection H as <-;
          reflexivity ]).
Qed.

Lemma settle_showWelcome (f : Fetch) (o : Outcome) (s next : App) :
  settle f o s = Some next -> showWelcome next = showWelcome s.
Proof.
  unfold settle, startAnalysis_then, stopAnalysis_then.
  destruct (cont f) as [ | env | | ], o as [[d | [ok] | d] | why];
    try discriminate; intros H; injection H as <-;
    try destruct ok; reflexivity.
Qed.

Lemma commit_showWelcome (prev next : App) :
  showWelcome (commit prev next) = showWelcome next.
Proof.
  pose proof (commit_cells prev next) as H. unfold cells in H.
  now injection H.
Qed.

Lemma step_leaves_welcome (e : Event) (s s' : App) :
  (showWelcome s = true -> s = init) ->
  step e s = Some s' ->
  showWelcome s' = false /\ (showWelcome s = true -> e = TapWelcome).
Proof.
  intros W E. unfold step in E.
  destruct (handle e s) as [next | ] eqn:H; [ | discriminate ].
  injection E as <-. rewrite commit_showWelcome.
  destruct (showWelcome s) eqn:Ws.
  - rewrite (W eq_refl) in H.
    destruct e as [ | v | v | | | | | n o]; try discriminate.
    + injection H as <-. now split.
    + unfold handle in H. cbn in H. destruct n; discriminate.
  - split; [ | discriminate ].
    revert H. unfold handle, onPressControl, screen. rewrite Ws.
    destruct e as [ | v | v | | | | | n o];
      destruct (isConnected s); try discriminate;
      repeat match goal with
        | |- context [match timer s with _ => _ end] =>
            destruct (timer s); [ | discriminate]
        | |- context [nth_error ?l ?k] =>
            destruct (nth_error l k) as [f | ]; [ | discriminate]
        | |- context [if loading s then _ else _] => destruct (loading s)
        | |- context [if isAnalysisRunning s then _ else _] =>
            destruct (isAnalysisRunning s)
        end;
      intros H;
      first [ injection H as <-; exact Ws
            | apply settle_showWelcome in H; rewrite H; exact Ws ].
Qed.

Lemma run_welcome (tr : list Event) : forall s s',
  (showWelcome s = true -> s = init) ->
  run tr s = Some s' ->
  showWelcome s' = true -> s' = init.
Proof.
  induction tr as [ | e tr IH]; cbn; intros s s' W H.
  - now injection H as <-.
  - destruct (step e s) as [s1 | ] eqn:E; [ | discriminate ].
    destruct (step_leaves_welcome e s s1 W E) as [W1 _].
    apply (IH s1 s'); [ | exact H ]. rewrite W1. discriminate.
Qed.

(** X3.  A reachable state that still shows the welcome screen is the
    mounted component itself: nothing has been requested, registered or
    raised.  The only event possible there is the tap that dismisses the
    screen, and after any transition the welcome screen is gone for good. *)
Theorem welcome_screen_gates_everything (s : App) :
  reachable s ->
  (showWelcome s = true -> s = init) /\
  (forall e s',
      step e s = Some s' ->
      showWelcome s' = false /\ (showWelcome s = true -> e = TapWelcome)).
Proof.
  intros [tr H].
  assert (W : showWelcome s = true -> s = init).
  { apply (run_welcome tr init s); [ reflexivity | exact H ]. }
  split; [ exact W | ].
  intros e s' E. now apply (step_leaves_welcome e s s').
Qed.

Lemma commit_closure (prev next : App) :
  closure (commit prev next) = closure next.
Proof.
  pose proof (commit_cells prev next) as H. unfold cells in H.
  injection H as _ Hip Hport _ _ _ _. unfold closure. now rewrite Hip, Hport.
Qed.

(** X4.  The host and port change only when the user types into the fields
    of the connection screen; in particular they never change while the
    component is connected. *)
Theorem endpoint_changes_only_by_typing (e : Event) (s s' : App) :
  step e s = Some s' ->
  (closure s' = closure s \/
   (screen s = Connection /\
    ((exists v, e = TypeIp v /\ closure s' = mkClosure v (port s)) \/
     (exists v, e = TypePort v /\ closure s' = mkClosure (ipAddress s) v)))) /\
  (isConnected s = true -> closure s' = closure s).
Proof.
  unfold step.
  destruct (handle e s) as [next | ] eqn:H; [ | discriminate ].
  intros E; injection E as <-. rewrite commit_closure.
  assert (G : closure next = closure s \/
   (screen s = Connection /\
    ((exists v, e = TypeIp v /\ closure next = mkClosure v (port s)) \/
     (exists v, e = TypePort v /\ closure next = mkClosure (ipAddress s) v)))).
  { revert H. unfold handle, onPressControl.
    destruct e as [ | v | v | | | | | n o];
      destruct (screen s) eqn:Scr; try discriminate;
      repeat match goal with
        | |- context [match timer s with _ => _ end] =>
            destruct (timer s); [ | discriminate]
        | |- context [nth_error ?l ?k] =>
            destruct (nth_error l k) as [f | ]; [ | discriminate]
        | |- context [if loading s then _ else _] => destruct (loading s)
        | |- context [if isAnalysisRunning s then _ else _] =>
            destruct (isAnalysisRunning s)
        end;
      intros H;
      first [ injection H as <-;
              first [ left; reflexivity
                    | right; split; [ reflexivity | ];
                      first [ left; eexists; split; reflexivity
                            | right; eexists; split; reflexivity ] ]
            | left; apply settle_frame in H; destruct H as [_ H]; exact H ]. }
  split; [ exact G | ].
  intros C. destruct G as [G | [Scr _]]; [ exact G | ].
  apply screen_Connection in Scr. destruct Scr as [_ C']. congruence.
Qed.

Lemma nth_error_snoc {A} (l : list A) (x : A) :
  nth_error (l ++ [x]) (List.length l) = Some x.
Proof.
  rewrite nth_error_app2 by apply le_n. now rewrite Nat.sub_diag.
Qed.

Lemma remove_nth_snoc {A} (l : list A) (x : A) :
  remove_nth (List.length l) (l ++ [x]) = l.
Proof.
  induction l as [ | a l IH]; [ reflexivity | ].
  cbn [List.length app]. rewrite remove_nth_cons. now rewrite IH.
Qed.

(** X5.  The two fields stay editable while a connect request is pending.
    If host and port are retyped after Connect was pressed and the status
    response then reports a running analysis, the component is connected
    with the retyped endpoint: the status request went to the old endpoint,
    the first data request and the polling interval go to the new one. *)
Theorem endpoint_edited_while_connecting
    (h p : string) (d : StatusReply) (s : App) :
  screen s = Connection ->
  loading s = false ->
  analysis_running d = true ->
  exists s',
    run [TapConnect; TypeIp h; TypePort p;
         Settle (List.length (inflight s)) (Resolved (JStatus d))] s
      = Some s' /\
    isConnected s' = true /\
    closure s' = mkClosure h p /\
    issued s' =
      (issued s ++ [statusRequest (closure s); dataRequest (mkClosure h p)])%list /\
    timer s' = Some (mkInterval (mkClosure h p) 1000).
Proof.
  intros Scr L R. pose proof Scr as Hs.
  apply screen_Connection in Hs as [W C].
  cbn [run]. rewrite (step_connect s Scr L).
  assert (E1 : step (TypeIp h) (testConnection s)
               = Some (setIpAddress h (testConnection s))).
  { unfold step, handle, screen. cbn. rewrite W, C.
    now rewrite commit_same_deps. }
  rewrite E1.
  assert (E2 : step (TypePort p) (setIpAddress h (testConnection s))
               = Some (setPort p (setIpAddress h (testConnection s)))).
  { unfold step, handle, screen. cbn. rewrite W, C.
    now rewrite commit_same_deps. }
  rewrite E2.
  erewrite step_settle by (cbn; apply nth_error_snoc).
  cbn [inflight setPort setIpAddress testConnection fetch setLoading].
  rewrite remove_nth_snoc. unfold settle. cbn [cont].
  eexists. split; [ reflexivity | ].
  unfold commit, depsChanged, effectBody, effectCleanup.
  cbn. rewrite C, R. cbn. repeat split.
  rewrite <- app_assoc. reflexivity.
Qed.

(** X6.  When a start request succeeds, [isAnalysisRunning] is set,
    [loading] is cleared, no alert is raised and the handler issues a data
    request to the endpoint of the render in which Start was pressed, even
    if the component has been disconnected meanwhile.  If the component is
    connected and was not running, the polling effect adds a second data
    request at once and registers the interval. *)
Theorem start_success_begins_polling
    (n : nat) (f : Fetch) (env : Closure) (s : App) :
  nth_error (inflight s) n = Some f ->
  cont f = H_startAnalysis env ->
  exists s',
    step (Settle n (Resolved (JAck (mkAckReply true)))) s = Some s' /\
    isAnalysisRunning s' = true /\
    loading s' = false /\
    isConnected s' = isConnected s /\
    fftData s' = fftData s /\
    alerts s' = alerts s /\
    issued s' =
      (if isConnected s && negb (isAnalysisRunning s)
       then issued s ++ [dataRequest env; dataRequest (closure s)]
       else issued s ++ [dataRequest env])%list /\
    timer s' =
      (if isAnalysisRunning s then timer s
       else if isConnected s then Some (mkInterval (closure s) 1000)
       else None).
Proof.
  intros Hn Hf. rewrite (step_settle _ _ _ _ Hn).
  unfold settle. rewrite Hf.
  eexists. split; [ reflexivity | ].
  unfold commit, depsChanged, effectBody, effectCleanup,
    startAnalysis_finally, startAnalysis_then.
  cbn. rewrite Bool.eqb_reflx. cbn.
  destruct (isAnalysisRunning s) eqn:A; cbn.
  - rewrite Bool.andb_false_r. repeat split.
  - destruct (isConnected s) eqn:C; cbn; rewrite ?C; repeat split.
    rewrite <- app_assoc. reflexivity.
Qed.

(** X7.  When a stop request succeeds, [isAnalysisRunning] and [loading]
    are cleared and a running component's interval is cleared; the snapshot
    stays in [fftData], no alert is raised, nothing is requested and the
    other pending requests stay pending. *)
Theorem stop_success_ends_polling (n : nat) (f : Fetch) (s : App) :
  nth_error (inflight s) n = Some f ->
  cont f = H_stopAnalysis ->
  exists s',
    step (Settle n (Resolved (JAck (mkAckReply true)))) s = Some s' /\
    isAnalysisRunning s' = false /\
    loading s' = false /\
    isConnected s' = isConnected s /\
    fftData s' = fftData s /\
    alerts s' = alerts s /\
    issued s' = issued s /\
    inflight s' = remove_nth n (inflight s) /\
    timer s' = (if isAnalysisRunning s then None else timer s).
Proof.
  intros Hn Hf. rewrite (step_settle _ _ _ _ Hn).
  unfold settle. rewrite Hf.
  eexists. split; [ reflexivity | ].
  unfold commit, depsChanged, effectBody, effectCleanup,
    stopAnalysis_finally, stopAnalysis_then.
  cbn. rewrite Bool.eqb_reflx. cbn.
  destruct (isAnalysisRunning s) eqn:A; cbn; [ | repeat split ].
  rewrite Bool.andb_false_r. repeat split.
Qed.

(** X8.  When a start or stop request fails or is answered with
    [success: false], the handler raises one "Error" alert ("Network error",
    "Failed to start analysis" or "Failed to stop analysis") and clears
    [loading]; [isAnalysisRunning], the connection, the snapshot and the
    interval are as before and nothing is requested.  On the analysis
    screen the control button is enabled again, and what a press requests
    depends on [isAnalysisRunning] alone, not on the request that failed: a
    stop request if it is true, a start request if it is false. *)
Theorem start_stop_failure_only_alerts
    (n : nat) (f : Fetch) (o : Outcome) (s : App) :
  nth_error (inflight s) n = Some f ->
  (cont f = H_stopAnalysis \/ exists env, cont f = H_startAnalysis env) ->
  (o = Resolved (JAck (mkAckReply false)) \/ exists why, o = Rejected why) ->
  exists s',
    step (Settle n o) s = Some s' /\
    loading s' = false /\
    isAnalysisRunning s' = isAnalysisRunning s /\
    isConnected s' = isConnected s /\
    fftData s' = fftData s /\
    timer s' = timer s /\
    issued s' = issued s /\
    inflight s' = remove_nth n (inflight s) /\
    alerts s' = (alerts s ++ [mkAlert "Error" (errorText (cont f) o)])%list /\
    (screen s = Analysis ->
     exists s'',
       step TapControl s' = Some s'' /\
       issued s'' =
         (issued s ++
          [if isAnalysisRunning s then stopRequest (closure s)
           else startRequest (closure s)])%list).
Proof.
  intros Hn Hk Ho. rewrite (step_settle _ _ _ _ Hn). unfold settle.
  assert (G : forall next,
    loading next = false ->
    isAnalysisRunning next = isAnalysisRunning s ->
    isConnected next = isConnected s ->
    showWelcome next = showWelcome s ->
    ipAddress next = ipAddress s ->
    port next = port s ->
    issued next = issued s ->
    (screen s = Analysis ->
     exists s'',
       step TapControl next = Some s'' /\
       issued s'' =
         (issued s ++
          [if isAnalysisRunning s then stopRequest (closure s)
           else startRequest (closure s)])%list)).
  { intros next L A C W Kip Kport I Scr.
    apply screen_Analysis in Scr as [Ws Cs].
    unfold step, handle, screen, onPressControl.
    rewrite W, Ws, C, Cs, L, A.
    eexists. split; [ reflexivity | ].
    destruct (isAnalysisRunning s);
      rewrite commit_same_deps by reflexivity;
      unfold stopAnalysis, startAnalysis, fetch, stopRequest, startRequest,
        closure; cbn [issued ipAddress port setLoading];
      now rewrite I, Kip, Kport. }
  destruct Hk as [Hk | [env Hk]], Ho as [-> | [why ->]]; rewrite Hk;
    unfold stopAnalysis_finally, stopAnalysis_then, stopAnalysis_catch,
      startAnalysis_finally, startAnalysis_then, startAnalysis_catch;
    cbn [success];
    (eexists; split; [ reflexivity | ];
     rewrite commit_same_deps by reflexivity;
     repeat split;
     apply G; reflexivity).
Qed.

Lemma commit_fftData (prev next : App) :
  fftData (commit prev next) = fftData next.
Proof.
  pose proof (commit_cells prev next) as H. unfold cells in H.
  now injection H.
Qed.

Lemma settle_fftData (f : Fetch) (o : Outcome) (s next : App) :
  settle f o s = Some next ->
  fftData next = fftData s \/
  exists d, o = Resolved (JData d) /\ fftData next = Some d.
Proof.
  unfold settle, startAnalysis_then, stopAnalysis_then.
  destruct (cont f) as [ | env | | ], o as [[d | [ok] | d] | why];
    try discriminate; intros H; injection H as <-;
    try destruct ok; try (left; reflexivity).
  right. now exists d.
Qed.

Lemma step_fftData (e : Event) (s s' : App) :
  step e s = Some s' ->
  fftData s' = fftData s \/
  exists n d, e = Settle n (Resolved (JData d)) /\ fftData s' = Some d.
Proof.
  unfold step.
  destruct (handle e s) as [next | ] eqn:H; [ | discriminate ].
  intros E; injection E as <-. rewrite commit_fftData.
  revert H. unfold handle, onPressControl.
  destruct e as [ | v | v | | | | | n o];
    destruct (screen s); try discriminate;
    repeat match goal with
      | |- context [match timer s with _ => _ end] =>
          destruct (timer s); [ | discriminate]
      | |- context [nth_error ?l ?k] =>
          destruct (nth_error l k) as [f | ]; [ | discriminate]
      | |- context [if loading s then _ else _] => destruct (loading s)
      | |- context [if isAnalysisRunning s then _ else _] =>
          destruct (isAnalysisRunning s)
      end;
    intros H;
    first [ injection H as <-; left; reflexivity
          | apply settle_fftData in H; destruct H as [H | [d [-> H]]];
            [ left; exact H | right; now exists n, d ] ].
Qed.

Lemma run_fftData (tr : list Event) : forall s s',
  run tr s = Some s' ->
  fftData s' = fftData s \/
  exists n d, In (Settle n (Resolved (JData d))) tr /\ fftData s' = Some d.
Proof.
  induction tr as [ | e tr IH]; cbn [run]; intros s s' H.
  - injection H as <-. now left.
  - destruct (step e s) as [s1 | ] eqn:E; [ | discriminate ].
    destruct (IH s1 s' H) as [K | (n & d & Hin & K)].
    + destruct (step_fftData e s s1 E) as [K1 | (n & d & -> & K1)].
      * left. congruence.
      * right. exists n, d. split; [ now left | congruence ].
    + right. exists n, d. split; [ now right | exact K ].
Qed.

(** X9.  As long as every reply has the shape its handler reads (a poll
    reply is an [FFTData] record), [fftData] is not cleared: after any run
    of such events it holds either what it held before or the body of a
    successful poll response that arrived during the run. *)
Theorem snapshot_is_never_cleared (tr : list Event) (s s' : App) :
  run tr s = Some s' ->
  fftData s' = fftData s \/
  exists n d, In (Settle n (Resolved (JData d))) tr /\ fftData s' = Some d.
Proof.
  exact (run_fftData tr s s').
Qed.

Lemma commit_alerts (prev next : App) :
  alerts (commit prev next) = alerts next.
Proof.
  unfold commit, effectBody, effectCleanup.
  destruct (depsChanged prev next); [ | reflexivity ].
  cbn. now destruct (isConnected next && isAnalysisRunning next).
Qed.

Lemma settle_alerts (f : Fetch) (o : Outcome) (s next : App) :
  settle f o s = Some next ->
  (alerts next = alerts s \/
   (isControlRequest f = true /\
    exists a, alerts next = (alerts s ++ [a])%list)) /\
  (isControlRequest f = false -> alerts next = alerts s).
Proof.
  unfold settle, startAnalysis_then, stopAnalysis_then, isControlRequest,
    isDataRequest.
  destruct (cont f) as [ | env | | ], o as [[d | [ok] | d] | why];
    try discriminate; intros H; injection H as <-;
    try destruct ok; cbn;
    (split; [ | first [ discriminate | reflexivity ] ]);
    first [ left; reflexivity
          | right; split; [ reflexivity | eexists; reflexivity ] ].
Qed.

(** X10.  Among the events of the model (replies of the shape their
    handler reads, and rejections), a transition raises at most one alert,
    and only the settling of a connect, start or stop request raises one:
    taps, typing, interval firings and the settling of a poll never do. *)
Theorem only_control_responses_alert (e : Event) (s s' : App) :
  step e s = Some s' ->
  alerts s' = alerts s \/
  exists n o f a,
    e = Settle n o /\
    nth_error (inflight s) n = Some f /\
    isControlRequest f = true /\
    alerts s' = (alerts s ++ [a])%list.
Proof.
  unfold step.
  destruct (handle e s) as [next | ] eqn:H; [ | discriminate ].
  intros E; injection E as <-. rewrite commit_alerts.
  revert H. unfold handle, onPressControl.
  destruct e as [ | v | v | | | | | n o];
    destruct (screen s); try discriminate;
    repeat match goal with
      | |- context [match timer s with _ => _ end] =>
          destruct (timer s); [ | discriminate]
      | |- context [nth_error ?l ?k] =>
          destruct (nth_error l k) as [f | ] eqn:Hn; [ | discriminate]
      | |- context [if loading s then _ else _] => destruct (loading s)
      | |- context [if isAnalysisRunning s then _ else _] =>
          destruct (isAnalysisRunning s)
      end;
    intros H;
    first [ injection H as <-; left; reflexivity
          | apply settle_alerts in H; destruct H as [[H | [Hc [a H]]] _];
            [ left; exact H | right; now exists n, o, f, a ] ].
Qed.

(** X11.  The interval does not wait for earlier polls: while it is
    registered, [k] firings in a row issue [k] data requests, all of which
    are pending together, and change no state cell. *)
Theorem ticks_pile_up (k : nat) : forall (s : App) (i : Interval),
  timer s = Some i ->
  exists s',
    run (repeat Tick k) s = Some s' /\
    inflight s' = (inflight s ++ repeat (dataRequest (callback i)) k)%list /\
    issued s' = (issued s ++ repeat (dataRequest (callback i)) k)%list /\
    cells s' = cells s /\
    timer s' = Some i.
Proof.
  induction k as [ | k IH]; intros s i T; cbn [repeat run].
  - exists s. rewrite !app_nil_r. repeat split. exact T.
  - rewrite (step_tick_on i s T).
    destruct (IH (fetchFFTData (callback i) s) i T)
      as (s' & R & I1 & I2 & C & T').
    exists s'. split; [ exact R | ].
    rewrite I1, I2, C. cbn [inflight issued fetchFFTData fetch].
    rewrite <- !app_assoc. repeat split. exact T'.
Qed.

Lemma peakRows_spec (l : list PeakData) : forall index,
  map row_key (peakRows index l) = seq index (List.length l) /\
  map row_number (peakRows index l) = seq (index + 1) (List.length l) /\
  map row_frequency (peakRows index l)
    = map (fun peak => mkFixed (frequency peak) 2) l /\
  map row_magnitude (peakRows index l)
    = map (fun peak => mkFixed (magnitude peak) 6) l.
Proof.
  induction l as [ | peak rest IH]; intros index; cbn.
  - repeat split.
  - destruct (IH (S index)) as (K & N & F & M).
    rewrite K, N, F, M. repeat split.
Qed.

(** X12.  The results panel shows "No peaks detected" for an empty
    [peak_data]; otherwise it shows one row per peak, in the order of
    [peak_data], with keys 0, 1, ... (pairwise distinct), titles numbered
    from 1, the frequency printed with 2 digits and the magnitude with 6. *)
Theorem peak_rows_follow_peak_data (l : list PeakData) :
  (l = [] -> renderPeaks l = EmptyPeaks "No peaks detected") /\
  (l <> [] ->
   exists rows,
     renderPeaks l = PeakRows rows /\
     map row_key rows = seq 0 (List.length l) /\
     map row_number rows = seq 1 (List.length l) /\
     map row_frequency rows = map (fun peak => mkFixed (frequency peak) 2) l /\
     map row_magnitude rows = map (fun peak => mkFixed (magnitude peak) 6) l /\
     NoDup (map row_key rows)).
Proof.
  split.
  - intros ->. reflexivity.
  - intros Hne. destruct l as [ | peak rest]; [ congruence | ].
    exists (peakRows 0 (peak :: rest)).
    destruct (peakRows_spec (peak :: rest) 0) as (K & N & F & M).
    repeat split; try assumption.
    rewrite K. apply seq_NoDup.
Qed.

(** X13.  As long as every reply has the shape its handler reads (a poll
    reply is an [FFTData] record): once a snapshot is stored, every analysis
    screen shown later, whatever happened in between (disconnecting,
    connecting again, stopping the analysis), shows the results of a stored
    snapshot with 4 digits for the voltage and the power, never one of the
    two hint texts. *)
Theorem results_stay_on_screen (tr : list Event) (s s' : App) :
  fftData s <> None ->
  run tr s = Some s' ->
  screen s' = Analysis ->
  exists d control,
    fftData s' = Some d /\
    render s' =
      AnalysisScreen control
        (Results (mkFixed (max_voltage d) 4) (mkFixed (total_power d) 4)
                 (renderPeaks (peak_data d))).
Proof.
  intros Hd R Scr.
  assert (exists d, fftData s' = Some d) as [d Hd'].
  { destruct (run_fftData tr s s' R) as [K | (n & d & _ & K)].
    - rewrite K. destruct (fftData s) as [d | ]; [ now exists d | congruence ].
    - now exists d. }
  apply screen_Analysis in Scr as [W C].
  exists d. eexists. split; [ exact Hd' | ].
  unfold render, renderData. rewrite W, C, Hd'. reflexivity.
Qed.

(** X14.  The screen and the handlers agree.  On the welcome screen only
    the dismissing tap is possible.  On the analysis screen a disabled
    control button does nothing; an enabled one sets [loading] and issues a
    stop request if its caption is "Stop Analysis" and a start request
    otherwise.  On the connection screen a disabled Connect button does
    nothing; an enabled one sets [loading] and requests the status of
    exactly the host and port shown in the two fields. *)
Theorem buttons_request_what_the_screen_shows (s : App) :
  match render s with
  | WelcomeScreen =>
      step TapWelcome s = Some (setShowWelcome false s) /\
      step TapConnect s = None /\
      step TapControl s = None /\
      step TapDisconnect s = None
  | AnalysisScreen control data =>
      if disabled control then step TapControl s = Some s
      else
        exists s',
          step TapControl s = Some s' /\
          loading s' = true /\
          issued s' =
            (issued s ++
             [if String.eqb (caption control) "Stop Analysis"
              then stopRequest (closure s)
              else startRequest (closure s)])%list
  | ConnectionScreen ipValue portValue connect =>
      if disabled connect then step TapConnect s = Some s
      else
        exists s',
          step TapConnect s = Some s' /\
          loading s' = true /\
          issued s' =
            (issued s ++
             [mkFetch ("http://" ++ ipValue ++ ":" ++ portValue ++ "/api/status")
                      GET H_testConnection])%list
  end.
Proof.
  unfold render, step, handle, screen, onPressControl.
  destruct (showWelcome s) eqn:W.
  - rewrite commit_same_deps by reflexivity. repeat split.
  - destruct (isConnected s) eqn:C; cbn [disabled caption];
      destruct (loading s) eqn:L;
      try (now rewrite commit_same_deps).
    + destruct (isAnalysisRunning s); cbn [String.eqb];
        rewrite commit_same_deps by reflexivity;
        eexists; repeat split.
    + rewrite commit_same_deps by reflexivity. eexists. repeat split.
Qed.

Lemma commit_loading (prev next : App) :
  loading (commit prev next) = loading next.
Proof.
  pose proof (commit_cells prev next) as H. unfold cells in H.
  now injection H.
Qed.

Lemma settle_control_loading (f : Fetch) (o : Outcome) (s next : App) :
  settle f o s = Some next ->
  isControlRequest f = true ->
  loading next = false.
Proof.
  unfold settle, startAnalysis_then, stopAnalysis_then, isControlRequest,
    isDataRequest.
  destruct (cont f) as [ | env | | ], o as [[d | [ok] | d] | why];
    try discriminate; intros H; injection H as <-;
    try destruct ok; cbn; congruence.
Qed.

(** X1.  Taking the [then]/[catch]/[finally] chain of a settled request as
    one step, so looking at the component whenever a tap, a keystroke, an
    interval firing or a response can arrive: in every reachable state at
    most one connect, start or stop request is pending, and [loading] is set
    exactly while one is.  When that request settles, with a reply of the
    shape its handler reads or with a rejection, [loading] is cleared and no
    such request is pending any more. *)
Theorem one_control_request_at_a_time (s : App) :
  reachable s ->
  List.length (filter isControlRequest (inflight s))
    = (if loading s then 1 else 0) /\
  (forall n f,
      nth_error (inflight s) n = Some f ->
      isControlRequest f = true ->
      loading s = true /\
      forall o s',
        step (Settle n o) s = Some s' ->
        loading s' = false /\ filter isControlRequest (inflight s') = []).
Proof.
  intros R. pose proof (reachable_busy s R) as B.
  split; [ exact B | ].
  intros n f Hn Hf.
  split; [ exact (pending_control_loading n f s B Hn Hf) | ].
  intros o s' E.
  pose proof (step_busy _ _ _ B E) as B'.
  assert (L : loading s' = false).
  { rewrite (step_settle _ _ _ _ Hn) in E.
    destruct (settle f o _) as [next | ] eqn:H; [ | discriminate ].
    injection E as <-. rewrite commit_loading.
    exact (settle_control_loading _ _ _ _ H Hf). }
  split; [ exact L | ].
  unfold busy in B'. rewrite L in B'.
  now apply length_zero_iff_nil.
Qed.

(** ** Instances *)

Lemma one_control_request_at_a_time_witness :
  reachable (after toStartPending) /\
  List.length (filter isControlRequest (inflight (after toStartPending)))
    = (if loading (after toStartPending) then 1 else 0) /\
  (forall n f,
      nth_error (inflight (after toStartPending)) n = Some f ->
      isControlRequest f = true ->
      loading (after toStartPending) = true /\
      forall o s',
        step (Settle n o) (after toStartPending) = Some s' ->
        loading s' = false /\ filter isControlRequest (inflight s') = []).
Proof.
  assert (R : reachable (after toStartPending))
    by (exists toStartPending; vm_compute; reflexivity).
  split; [ exact R | ].
  exact (one_control_request_at_a_time (after toStartPending) R).
Defined.

Lemma connected_only_by_status_response_witness :
  reachable (after [TapWelcome; TapConnect]) /\
  step (Settle 0 (Resolved (JStatus idleServer)))
       (after [TapWelcome; TapConnect]) = Some (after toConnected) /\
  isConnected (after [TapWelcome; TapConnect]) = false /\
  isConnected (after toConnected) = true /\
  loading (after [TapWelcome; TapConnect]) = true /\
  exists n f d,
    Settle 0 (Resolved (JStatus idleServer)) = Settle n (Resolved (JStatus d)) /\
    nth_error (inflight (after [TapWelcome; TapConnect])) n = Some f /\
    cont f = H_testConnection /\
    isAnalysisRunning (after toConnected) = analysis_running d.
Proof.
  assert (R : reachable (after [TapWelcome; TapConnect]))
    by (exists [TapWelcome; TapConnect]; vm_compute; reflexivity).
  split; [ exact R | ].
  do 3 (split; [ vm_compute; reflexivity | ]).
  apply (connected_only_by_status_response
           (Settle 0 (Resolved (JStatus idleServer)))
           (after [TapWelcome; TapConnect]) (after toConnected) R);
    vm_compute; reflexivity.
Defined.

Lemma welcome_screen_gates_everything_witness :
  reachable init /\
  (showWelcome init = true -> init = init) /\
  (forall e s',
      step e init = Some s' ->
      showWelcome s' = false /\ (showWelcome init = true -> e = TapWelcome)).
Proof.
  assert (R : reachable init) by (exists []; reflexivity).
  split; [ exact R | ].
  exact (welcome_screen_gates_everything init R).
Defined.

Lemma endpoint_changes_only_by_typing_witness :
  step (TypeIp "192.168.1.100") (after [TapWelcome])
    = Some (after [TapWelcome; TypeIp "192.168.1.100"]) /\
  (closure (after [TapWelcome; TypeIp "192.168.1.100"])
     = closure (after [TapWelcome]) \/
   (screen (after [TapWelcome]) = Connection /\
    ((exists v, TypeIp "192.168.1.100" = TypeIp v /\
                closure (after [TapWelcome; TypeIp "192.168.1.100"])
                  = mkClosure v (port (after [TapWelcome]))) \/
     (exists v, TypeIp "192.168.1.100" = TypePort v /\
                closure (after [TapWelcome; TypeIp "192.168.1.100"])
                  = mkClosure (ipAddress (after [TapWelcome])) v)))) /\
  (isConnected (after [TapWelcome]) = true ->
   closure (after [TapWelcome; TypeIp "192.168.1.100"])
     = closure (after [TapWelcome])).
Proof.
  split; [ vm_compute; reflexivity | ].
  apply (endpoint_changes_only_by_typing
           (TypeIp "192.168.1.100") (after [TapWelcome])
           (after [TapWelcome; TypeIp "192.168.1.100"])).
  vm_compute; reflexivity.
Defined.

Lemma endpoint_edited_while_connecting_witness :
  screen (after [TapWelcome]) = Connection /\
  loading (after [TapWelcome]) = false /\
  analysis_running runningServer = true /\
  exists s',
    run [TapConnect; TypeIp "192.168.1.100"; TypePort "8080";
         Settle (List.length (inflight (after [TapWelcome])))
                (Resolved (JStatus runningServer))] (after [TapWelcome])
      = Some s' /\
    isConnected s' = true /\
    closure s' = mkClosure "192.168.1.100" "8080" /\
    issued s' =
      (issued (after [TapWelcome]) ++
       [statusRequest (closure (after [TapWelcome]));
        dataRequest (mkClosure "192.168.1.100" "8080")])%list /\
    timer s' = Some (mkInterval (mkClosure "192.168.1.100" "8080") 1000).
Proof.
  do 3 (split; [ vm_compute; reflexivity | ]).
  apply (endpoint_edited_while_connecting
           "192.168.1.100" "8080" runningServer (after [TapWelcome]));
    vm_compute; reflexivity.
Defined.

Lemma start_success_begins_polling_witness :
  nth_error (inflight (after toStartPending)) 0
    = Some (startRequest (closure (after toConnected))) /\
  exists s',
    step (Settle 0 (Resolved (JAck (mkAckReply true)))) (after toStartPending)
      = Some s' /\
    isAnalysisRunning s' = true /\
    loading s' = false /\
    isConnected s' = isConnected (after toStartPending) /\
    fftData s' = fftData (after toStartPending) /\
    alerts s' = alerts (after toStartPending) /\
    issued s' =
      (if isConnected (after toStartPending)
          && negb (isAnalysisRunning (after toStartPending))
       then issued (after toStartPending) ++
            [dataRequest (closure (after toConnected));
             dataRequest (closure (after toStartPending))]
       else issued (after toStartPending) ++
            [dataRequest (closure (after toConnected))])%list /\
    timer s' =
      (if isAnalysisRunning (after toStartPending)
       then timer (after toStartPending)
       else if isConnected (after toStartPending)
            then Some (mkInterval (closure (after toStartPending)) 1000)
            else None).
Proof.
  split; [ vm_compute; reflexivity | ].
  apply (start_success_begins_polling
           0 (startRequest (closure (after toConnected)))
           (closure (after toConnected)) (after toStartPending));
    vm_compute; reflexivity.
Defined.

Lemma stop_success_ends_polling_witness :
  nth_error (inflight (after toStopPending)) 1
    = Some (stopRequest (closure (after toSnapshot))) /\
  exists s',
    step (Settle 1 (Resolved (JAck (mkAckReply true)))) (after toStopPending)
      = Some s' /\
    isAnalysisRunning s' = false /\
    loading s' = false /\
    isConnected s' = isConnected (after toStopPending) /\
    fftData s' = fftData (after toStopPending) /\
    alerts s' = alerts (after toStopPending) /\
    issued s' = issued (after toStopPending) /\
    inflight s' = remove_nth 1 (inflight (after toStopPending)) /\
    timer s' =
      (if isAnalysisRunning (after toStopPending) then None
       else timer (after toStopPending)).
Proof.
  split; [ vm_compute; reflexivity | ].
  apply (stop_success_ends_polling
           1 (stopRequest (closure (after toSnapshot)))
           (after toStopPending));
    vm_compute; reflexivity.
Defined.

Lemma start_stop_failure_only_alerts_witness :
  nth_error (inflight (after toStartPending)) 0
    = Some (startRequest (closure (after toConnected))) /\
  exists s',
    step (Settle 0 (Rejected NetworkError)) (after toStartPending) = Some s' /\
    loading s' = false /\
    isAnalysisRunning s' = isAnalysisRunning (after toStartPending) /\
    isConnected s' = isConnected (after toStartPending) /\
    fftData s' = fftData (after toStartPending) /\
    timer s' = timer (after toStartPending) /\
    issued s' = issued (after toStartPending) /\
    inflight s' = remove_nth 0 (inflight (after toStartPending)) /\
    alerts s' =
      (alerts (after toStartPending) ++
       [mkAlert "Error"
          (errorText (cont (startRequest (closure (after toConnected))))
                     (Rejected NetworkError))])%list /\
    (screen (after toStartPending) = Analysis ->
     exists s'',
       step TapControl s' = Some s'' /\
       issued s'' =
         (issued (after toStartPending) ++
          [if isAnalysisRunning (after toStartPending)
           then stopRequest (closure (after toStartPending))
           else startRequest (closure (after toStartPending))])%list).
Proof.
  split; [ vm_compute; reflexivity | ].
  apply (start_stop_failure_only_alerts
           0 (startRequest (closure (after toConnected)))
           (Rejected NetworkError) (after toStartPending)).
  - vm_compute; reflexivity.
  - right. eexists. reflexivity.
  - right. eexists. reflexivity.
Defined.

Lemma snapshot_is_never_cleared_witness :
  run toReconnected (after toSnapshot)
    = Some (after (toSnapshot ++ toReconnected)) /\
  (fftData (after (toSnapshot ++ toReconnected)) = fftData (after toSnapshot) \/
   exists n d,
     In (Settle n (Resolved (JData d))) toReconnected /\
     fftData (after (toSnapshot ++ toReconnected)) = Some d).
Proof.
  split; [ vm_compute; reflexivity | ].
  apply (snapshot_is_never_cleared
           toReconnected (after toSnapshot)
           (after (toSnapshot ++ toReconnected))).
  vm_compute; reflexivity.
Defined.

Lemma only_control_responses_alert_witness :
  step Tick (after toRunning) = Some (after (toRunning ++ [Tick])) /\
  (alerts (after (toRunning ++ [Tick])) = alerts (after toRunning) \/
   exists n o f a,
     Tick = Settle n o /\
     nth_error (inflight (after toRunning)) n = Some f /\
     isControlRequest f = true /\
     alerts (after (toRunning ++ [Tick]))
       = (alerts (after toRunning) ++ [a])%list).
Proof.
  split; [ vm_compute; reflexivity | ].
  apply (only_control_responses_alert
           Tick (after toRunning) (after (toRunning ++ [Tick]))).
  vm_compute; reflexivity.
Defined.

Lemma ticks_pile_up_witness :
  timer (after toRunning)
    = Some (mkInterval (closure (after toRunning)) 1000) /\
  exists s',
    run (repeat Tick 3) (after toRunning) = Some s' /\
    inflight s' =
      (inflight (after toRunning) ++
       repeat (dataRequest (closure (after toRunning))) 3)%list /\
    issued s' =
      (issued (after toRunning) ++
       repeat (dataRequest (closure (after toRunning))) 3)%list /\
    cells s' = cells (after toRunning) /\
    timer s' = Some (mkInterval (closure (after toRunning)) 1000).
Proof.
  split; [ vm_compute; reflexivity | ].
  apply (ticks_pile_up
           3 (after toRunning) (mkInterval (closure (after toRunning)) 1000)).
  vm_compute; reflexivity.
Defined.

Lemma peak_rows_follow_peak_data_witness :
  peak_data sample <> [] /\
  exists rows,
    renderPeaks (peak_data sample) = PeakRows rows /\
    map row_key rows = seq 0 (List.length (peak_data sample)) /\
    map row_number rows = seq 1 (List.length (peak_data sample)) /\
    map row_frequency rows
      = map (fun peak => mkFixed (frequency peak) 2) (peak_data sample) /\
    map row_magnitude rows
      = map (fun peak => mkFixed (magnitude peak) 6) (peak_data sample) /\
    NoDup (map row_key rows).
Proof.
  assert (H : peak_data sample <> []) by (vm_compute; discriminate).
  split; [ exact H | ].
  exact (proj2 (peak_rows_follow_peak_data (peak_data sample)) H).
Defined.

Lemma results_stay_on_screen_witness :
  fftData (after toSnapshot) <> None /\
  run toReconnected (after toSnapshot)
    = Some (after (toSnapshot ++ toReconnected)) /\
  screen (after (toSnapshot ++ toReconnected)) = Analysis /\
  isAnalysisRunning (after (toSnapshot ++ toReconnected)) = false /\
  exists d control,
    fftData (after (toSnapshot ++ toReconnected)) = Some d /\
    render (after (toSnapshot ++ toReconnected)) =
      AnalysisScreen control
        (Results (mkFixed (max_voltage d) 4) (mkFixed (total_power d) 4)
                 (renderPeaks (peak_data d))).
Proof.
  assert (H : fftData (after toSnapshot) <> None)
    by (vm_compute; discriminate).
  split; [ exact H | ].
  do 3 (split; [ vm_compute; reflexivity | ]).
  apply (results_stay_on_screen
           toReconnected (after toSnapshot)
           (after (toSnapshot ++ toReconnected)) H);
    vm_compute; reflexivity.
Defined.

(** * Start, stop and the polling schedule, event by event *)

Section RequestsOfOneKind.

Variable p : Fetch -> bool.
Hypothesis p_data : forall f, cont f = H_fetchFFTData -> p f = false.
Hypothesis p_status : forall f, cont f = H_testConnection -> p f = false.

Lemma filter_snoc_other (l : list Fetch) (f : Fetch) :
  p f = false -> filter p (l ++ [f]) = filter p l.
Proof using Type.
  intros H. rewrite filter_app. cbn. rewrite H. apply app_nil_r.
Qed.

Lemma commit_keeps_kind (prev next : App) :
  filter p (issued (commit prev next)) = filter p (issued next).
Proof using p_data.
  unfold commit, effectBody, effectCleanup.
  destruct (depsChanged prev next); [ | reflexivity ].
  cbn. destruct (isConnected next && isAnalysisRunning next);
    [ | reflexivity ].
  cbn. apply filter_snoc_other. now apply p_data.
Qed.

Lemma settle_keeps_kind (f : Fetch) (o : Outcome) (s next : App) :
  settle f o s = Some next ->
  filter p (issued next) = filter p (issued s).
Proof using p_data.
  unfold settle, startAnalysis_then, stopAnalysis_then.
  destruct (cont f) as [ | env | | ], o as [[d | [ok] | d] | why];
    try discriminate; intros H; injection H as <-;
    try destruct ok; cbn; try reflexivity.
  apply filter_snoc_other. now apply p_data.
Qed.

(** Every transition other than an enabled press of the control button
    (and of the Connect button) leaves the requests selected by [p] as
    they were. *)
Lemma step_keeps_kind (e : Event) (s s' : App) :
  step e s = Some s' ->
  filter p (issued s') = filter p (issued s) \/
  (e = TapControl /\ screen s = Analysis /\ loading s = false /\
   s' = onPressControl s).
Proof using p_data p_status.
  unfold step.
  destruct (handle e s) as [next | ] eqn:H; [ | discriminate ].
  intros E; injection E as <-.
  revert H. unfold handle.
  destruct e as [ | v | v | | | | | n o];
    destruct (screen s) eqn:Scr; try discriminate;
    repeat match goal with
      | |- context [match timer s with _ => _ end] =>
          destruct (timer s); [ | discriminate]
      | |- context [nth_error ?l ?k] =>
          destruct (nth_error l k) as [f | ]; [ | discriminate]
      | |- context [if loading s then _ else _] => destruct (loading s) eqn:L
      end;
    intros H;
    try (apply settle_keeps_kind in H; left;
         rewrite commit_keeps_kind; exact H);
    injection H as <-;
    try (left; rewrite commit_keeps_kind; reflexivity);
    try (left; rewrite commit_keeps_kind; cbn;
         apply filter_snoc_other;
         first [ now apply p_status | now apply p_data ]).
  right. repeat split.
  unfold onPressControl.
  destruct (isAnalysisRunning s); now rewrite commit_same_deps.
Qed.

End RequestsOfOneKind.

Lemma isStart_data (f : Fetch) : cont f = H_fetchFFTData -> isStartRequest f = false.
Proof. unfold isStartRequest. now intros ->. Qed.

Lemma isStart_status (f : Fetch) : cont f = H_testConnection -> isStartRequest f = false.
Proof. unfold isStartRequest. now intros ->. Qed.

Lemma isStop_data (f : Fetch) : cont f = H_fetchFFTData -> isStopRequest f = false.
Proof. unfold isStopRequest. now intros ->. Qed.

Lemma isStop_status (f : Fetch) : cont f = H_testConnection -> isStopRequest f = false.
Proof. unfold isStopRequest. now intros ->. Qed.

(** An enabled press of the control button, followed by a second press. *)
Lemma step_control_twice (s : App) :
  screen s = Analysis ->
  loading s = false ->
  step TapControl s = Some (onPressControl s) /\
  step TapControl (onPressControl s) = Some (onPressControl s) /\
  run [TapControl; TapControl] s = Some (onPressControl s) /\
  loading (onPressControl s) = true.
Proof.
  intros Scr L.
  assert (E1 : step TapControl s = Some (onPressControl s)).
  { unfold step, handle. rewrite Scr, L. unfold onPressControl.
    destruct (isAnalysisRunning s); now rewrite commit_same_deps. }
  assert (L1 : loading (onPressControl s) = true).
  { unfold onPressControl. now destruct (isAnalysisRunning s). }
  assert (E2 : step TapControl (onPressControl s) = Some (onPressControl s)).
  { apply screen_Analysis in Scr as [W C].
    unfold step, handle, screen. rewrite L1.
    replace (showWelcome (onPressControl s)) with false
      by (unfold onPressControl; now destruct (isAnalysisRunning s)).
    replace (isConnected (onPressControl s)) with true
      by (unfold onPressControl; now destruct (isAnalysisRunning s)).
    now rewrite commit_same_deps. }
  repeat split; try assumption.
  cbn [run]. now rewrite E1, E2.
Qed.

(** C3.  Start and stop requests are never duplicated.  In terms of the
    component, the acquisition is idle when [isAnalysisRunning] and
    [loading] are both false, running when [isAnalysisRunning] is true and
    [loading] false, and a request is pending while [loading] is true.
    Asking for a start twice in a row in the idle state, that is pressing
    the control button twice, issues exactly one start request: the second
    press changes nothing.  In the same way two presses in the running
    state issue exactly one stop request.  No event whatsoever issues a
    start request in a state that is not idle, or a stop request in a state
    that is not running. *)
Theorem start_and_stop_requests_are_not_duplicated :
  (forall s,
      screen s = Analysis -> loading s = false -> isAnalysisRunning s = false ->
      exists s1,
        run [TapControl; TapControl] s = Some s1 /\
        step TapControl s = Some s1 /\
        step TapControl s1 = Some s1 /\
        loading s1 = true /\
        issued s1 = (issued s ++ [startRequest (closure s)])%list) /\
  (forall s,
      screen s = Analysis -> loading s = false -> isAnalysisRunning s = true ->
      exists s1,
        run [TapControl; TapControl] s = Some s1 /\
        step TapControl s = Some s1 /\
        step TapControl s1 = Some s1 /\
        loading s1 = true /\
        issued s1 = (issued s ++ [stopRequest (closure s)])%list) /\
  (forall e s s',
      step e s = Some s' ->
      starts s' = starts s \/
      (e = TapControl /\ screen s = Analysis /\
       loading s = false /\ isAnalysisRunning s = false /\
       issued s' = (issued s ++ [startRequest (closure s)])%list)) /\
  (forall e s s',
      step e s = Some s' ->
      stops s' = stops s \/
      (e = TapControl /\ screen s = Analysis /\
       loading s = false /\ isAnalysisRunning s = true /\
       issued s' = (issued s ++ [stopRequest (closure s)])%list)).
Proof.
  split; [ | split; [ | split ] ].
  - intros s Scr L A.
    destruct (step_control_twice s Scr L) as (E1 & E2 & R & L1).
    exists (onPressControl s). repeat split; try assumption.
    unfold onPressControl. now rewrite A.
  - intros s Scr L A.
    destruct (step_control_twice s Scr L) as (E1 & E2 & R & L1).
    exists (onPressControl s). repeat split; try assumption.
    unfold onPressControl. now rewrite A.
  - intros e s s' E.
    destruct (step_keeps_kind isStartRequest isStart_data isStart_status
                e s s' E) as [K | (-> & Scr & L & ->)];
      [ now left | ].
    unfold onPressControl. destruct (isAnalysisRunning s) eqn:A.
    + left. unfold starts, stopAnalysis. cbn.
      now apply filter_snoc_other.
    + right. repeat split; assumption.
  - intros e s s' E.
    destruct (step_keeps_kind isStopRequest isStop_data isStop_status
                e s s' E) as [K | (-> & Scr & L & ->)];
      [ now left | ].
    unfold onPressControl. destruct (isAnalysisRunning s) eqn:A.
    + right. repeat split; assumption.
    + left. unfold stops, startAnalysis. cbn.
      now apply filter_snoc_other.
Qed.

Lemma start_and_stop_requests_are_not_duplicated_witness :
  screen (after toConnected) = Analysis /\
  loading (after toConnected) = false /\
  isAnalysisRunning (after toConnected) = false /\
  starts (after toConnected) = [] /\
  exists s1,
    run [TapControl; TapControl] (after toConnected) = Some s1 /\
    step TapControl (after toConnected) = Some s1 /\
    step TapControl s1 = Some s1 /\
    loading s1 = true /\
    issued s1 =
      (issued (after toConnected) ++
       [startRequest (closure (after toConnected))])%list.
Proof.
  do 4 (split; [ vm_compute; reflexivity | ]).
  apply (proj1 start_and_stop_requests_are_not_duplicated (after toConnected));
    vm_compute; reflexivity.
Defined.

Lemma commit_polling (prev next : App) :
  polling (commit prev next) = polling next.
Proof.
  pose proof (commit_cells prev next) as H. unfold cells in H.
  injection H as _ _ _ Hc Ha _ _. unfold polling. now rewrite Hc, Ha.
Qed.

Lemma commit_leaves_polling (prev next : App) :
  polling prev = true ->
  polling next = false ->
  timer (commit prev next) = None /\
  issued (commit prev next) = issued next.
Proof.
  unfold polling, commit, depsChanged, effectBody, effectCleanup.
  destruct prev, next; cbn.
  repeat match goal with b : bool |- _ => destruct b end; cbn;
    intros; try discriminate; split; reflexivity.
Qed.

(** What a handler chain adds to the request log when it changes one of the
    effect's dependencies. *)
Lemma settle_issued (f : Fetch) (o : Outcome) (s next : App) :
  settle f o s = Some next ->
  issued next = issued s \/
  exists env, issued next = (issued s ++ [dataRequest env])%list.
Proof.
  unfold settle, startAnalysis_then, stopAnalysis_then.
  destruct (cont f) as [ | env | | ], o as [[d | [ok] | d] | why];
    try discriminate; intros H; injection H as <-;
    try destruct ok; try (left; reflexivity).
  right. exists env. reflexivity.
Qed.

Lemma handle_issued (e : Event) (s next : App) :
  handle e s = Some next ->
  polling next = polling s \/
  issued next = issued s \/
  exists env, issued next = (issued s ++ [dataRequest env])%list.
Proof.
  unfold handle, onPressControl, polling.
  destruct e as [ | v | v | | | | | n o];
    destruct (screen s); try discriminate;
    repeat match goal with
      | |- context [match timer s with _ => _ end] =>
          destruct (timer s); [ | discriminate]
      | |- context [nth_error ?l ?k] =>
          destruct (nth_error l k) as [f | ]; [ | discriminate]
      | |- context [if loading s then _ else _] => destruct (loading s)
      | |- context [if isAnalysisRunning s then _ else _] =>
          destruct (isAnalysisRunning s) eqn:A
      end;
    intros H;
    first [ right; exact (settle_issued _ _ _ _ H)
          | injection H as <-;
            first [ left; cbn; rewrite ?A; reflexivity
                  | right; left; reflexivity ] ].
Qed.

Lemma step_status_resolved_running
    (n : nat) (f : Fetch) (d : StatusReply) (s : App) :
  nth_error (inflight s) n = Some f ->
  cont f = H_testConnection ->
  isConnected s = false ->
  analysis_running d = true ->
  exists s',
    step (Settle n (Resolved (JStatus d))) s = Some s' /\
    polling s' = true /\
    issued s' = (issued s ++ [dataRequest (closure s)])%list /\
    timer s' = Some (mkInterval (closure s) 1000).
Proof.
  intros Hn Hf C R. rewrite (step_settle _ _ _ _ Hn).
  unfold settle. rewrite Hf.
  eexists. split; [ reflexivity | ].
  unfold polling, commit, depsChanged, effectBody, effectCleanup.
  cbn. rewrite C, R. cbn. rewrite ?R. repeat split; assumption.
Qed.

Lemma step_start_resolved
    (n : nat) (f : Fetch) (env : Closure) (s : App) :
  nth_error (inflight s) n = Some f ->
  cont f = H_startAnalysis env ->
  isConnected s = true ->
  isAnalysisRunning s = false ->
  exists s',
    step (Settle n (Resolved (JAck (mkAckReply true)))) s = Some s' /\
    polling s' = true /\
    issued s' = (issued s ++ [dataRequest env; dataRequest (closure s)])%list /\
    timer s' = Some (mkInterval (closure s) 1000).
Proof.
  intros Hn Hf C A. rewrite (step_settle _ _ _ _ Hn).
  unfold settle. rewrite Hf.
  eexists. split; [ reflexivity | ].
  unfold polling, commit, depsChanged, effectBody, effectCleanup,
    startAnalysis_finally, startAnalysis_then.
  cbn. rewrite C, A. cbn. rewrite ?C. repeat split.
  rewrite <- app_assoc. reflexivity.
Qed.

(** C6, amended.  A 1000 ms interval calling [fetchFFTData] is registered
    exactly while [isConnected] and [isAnalysisRunning] are both true, each
    of its firings issues one data request, and it is cleared, so that it
    cannot fire again, by the transition that makes either of them false.
    The transition that makes both true issues a data request at once.  When
    it is a successful connect or a poll response, that is the only request;
    when it is a successful start, the start handler's own data request goes
    out as well, so two data requests are issued at once. *)
Theorem polling_schedule :
  (* entering by a connect *)
  (forall n f d s,
      nth_error (inflight s) n = Some f ->
      cont f = H_testConnection ->
      isConnected s = false ->
      analysis_running d = true ->
      exists s',
        step (Settle n (Resolved (JStatus d))) s = Some s' /\
        polling s' = true /\
        issued s' = (issued s ++ [dataRequest (closure s)])%list /\
        timer s' = Some (mkInterval (closure s) 1000)) /\
  (* entering by a poll *)
  (forall n f d s,
      nth_error (inflight s) n = Some f ->
      cont f = H_fetchFFTData ->
      isConnected s = true ->
      isAnalysisRunning s = false ->
      is_running d = true ->
      exists s',
        step (Settle n (Resolved (JData d))) s = Some s' /\
        polling s' = true /\
        issued s' = (issued s ++ [dataRequest (closure s)])%list /\
        timer s' = Some (mkInterval (closure s) 1000)) /\
  (* entering by a start *)
  (forall n f env s,
      nth_error (inflight s) n = Some f ->
      cont f = H_startAnalysis env ->
      isConnected s = true ->
      isAnalysisRunning s = false ->
      exists s',
        step (Settle n (Resolved (JAck (mkAckReply true)))) s = Some s' /\
        polling s' = true /\
        issued s' =
          (issued s ++ [dataRequest env; dataRequest (closure s)])%list /\
        timer s' = Some (mkInterval (closure s) 1000)) /\
  (* every way of entering *)
  (forall e s s',
      step e s = Some s' ->
      polling s = false ->
      polling s' = true ->
      timer s' = Some (mkInterval (closure s') 1000) /\
      (issued s' = (issued s ++ [dataRequest (closure s')])%list \/
       exists env,
         issued s' =
           (issued s ++ [dataRequest env; dataRequest (closure s')])%list)) /\
  (* while polling *)
  (forall s,
      reachable s ->
      timer s =
        (if polling s then Some (mkInterval (closure s) 1000) else None)) /\
  (forall s i,
      timer s = Some i ->
      exists s',
        step Tick s = Some s' /\
        issued s' = (issued s ++ [dataRequest (callback i)])%list /\
        timer s' = Some i /\
        cells s' = cells s) /\
  (forall s, timer s = None -> step Tick s = None) /\
  (* leaving *)
  (forall e s s',
      step e s = Some s' ->
      polling s = true ->
      polling s' = false ->
      timer s' = None /\ step Tick s' = None).
Proof.
  repeat match goal with |- _ /\ _ => split end.
  - exact step_status_resolved_running.
  - intros n f d s Hn Hf C A R.
    destruct (step_poll_resolved n f d s Hn Hf)
      as (s' & E & _ & A' & C' & _ & _ & _ & _ & T' & L').
    rewrite A, R, C in *. cbn in T', L'.
    exists s'. unfold polling. rewrite A', C'. repeat split; assumption.
  - exact step_start_resolved.
  - intros e s s' E P P'. unfold step in E.
    destruct (handle e s) as [next | ] eqn:H; [ | discriminate ].
    injection E as <-. rewrite commit_polling in P'.
    rewrite commit_closure.
    destruct (commit_enters_polling s next P P') as [I T].
    split; [ exact T | ]. rewrite I.
    destruct (handle_issued e s next H) as [K | [K | [env K]]].
    + congruence.
    + left. now rewrite K.
    + right. exists env. rewrite K, <- app_assoc. reflexivity.
  - intros s R. exact (reachable_scheduled s R).
  - intros s i T. eexists.
    split; [ apply step_tick_on; exact T | ]. repeat split. exact T.
  - exact step_tick_off.
  - intros e s s' E P P'. unfold step in E.
    destruct (handle e s) as [next | ] eqn:H; [ | discriminate ].
    injection E as <-. rewrite commit_polling in P'.
    destruct (commit_leaves_polling s next P P') as [T _].
    split; [ exact T | now apply step_tick_off ].
Qed.

Lemma polling_schedule_witness :
  run toStartPending init = Some (after toStartPending) /\
  nth_error (inflight (after toStartPending)) 0
    = Some (startRequest (closure (after toConnected))) /\
  isConnected (after toStartPending) = true /\
  isAnalysisRunning (after toStartPending) = false /\
  (exists s',
      step (Settle 0 (Resolved (JAck (mkAckReply true))))
           (after toStartPending) = Some s' /\
      polling s' = true /\
      issued s' =
        (issued (after toStartPending) ++
         [dataRequest (closure (after toConnected));
          dataRequest (closure (after toStartPending))])%list /\
      timer s' = Some (mkInterval (closure (after toStartPending)) 1000)) /\
  reachable (after toRunning) /\
  polling (after toRunning) = true /\
  timer (after toRunning) =
    (if polling (after toRunning)
     then Some (mkInterval (closure (after toRunning)) 1000)
     else None) /\
  exists s',
    step Tick (after toRunning) = Some s' /\
    issued s' =
      (issued (after toRunning) ++
       [dataRequest (closure (after toRunning))])%list /\
    timer s' = Some (mkInterval (closure (after toRunning)) 1000) /\
    cells s' = cells (after toRunning).
Proof.
  destruct polling_schedule as (_ & _ & Hstart & _ & Hinv & Htick & _ & _).
  assert (R : reachable (after toRunning))
    by (exists toRunning; vm_compute; reflexivity).
  do 4 (split; [ vm_compute; reflexivity | ]).
  split.
  { apply (Hstart 0 (startRequest (closure (after toConnected)))
                  (closure (after toConnected)) (after toStartPending));
      vm_compute; reflexivity. }
  split; [ exact R | ].
  split; [ vm_compute; reflexivity | ].
  split; [ exact (Hinv (after toRunning) R) | ].
  apply (Htick (after toRunning)
               (mkInterval (closure (after toRunning)) 1000)).
  vm_compute; reflexivity.
Defined.

(** C6, as stated, fails.  In the connected state with a start request
    pending no data request has been issued yet.  The successful response
    makes the component connected and running, and two data requests, not
    one, are issued at once: that of the start handler and that of the
    effect. *)
Lemma start_enters_polling_with_two_requests :
  run toStartPending init = Some (after toStartPending) /\
  polling (after toStartPending) = false /\
  polls (after toStartPending) = [] /\
  step (Settle 0 (Resolved (JAck (mkAckReply true)))) (after toStartPending)
    = Some (after toRunning) /\
  polling (after toRunning) = true /\
  polls (after toRunning)
    = [dataRequest (closure (after toConnected));
       dataRequest (closure (after toConnected))].
Proof.
  vm_compute. repeat split.
Qed.
